(** * ZooKeeper K8s operator: the configuration manager [src/config.py]

    A shallow embedding of [ZooKeeperConfig] and of the properties the
    specification states about it.

    Modelling conventions.
    - A Python [str] is a [string]; its characters are the code points
      0..255, which covers every literal of [config.py].
    - [self.charm.config[...]] integers are [Z]; an f-string renders them
      with [pretty] (decimal, a leading minus sign for negatives), and
      renders [None] as the text [None].
    - The application databag of the peer relation
      ([self.cluster.data[self.charm.app]]) is a [gmap string string];
      [.get(key, None)] is the lookup [!!].
    - [utils.pull] is not part of the embedded sources: its outcome is a
      parameter of the model, either the file contents or a raised
      exception. [ops.pebble.PathError] is the one exception the code
      catches.
    - A [push] is modelled by its arguments; the builtin [int] and the
      unit name are parameters of [set_zookeeper_myid]. *)

From Stdlib Require Import ZArith Ascii String List.
From stdpp Require Import base option list gmap strings pretty.

#[local] Arguments String.append : simpl nomatch.

Local Open Scope Z_scope.
Local Open Scope string_scope.
Local Open Scope list_scope.

(** ** Python values and exceptions *)

Inductive exn : Type :=
| PathError (kind : string)       (* ops.pebble.PathError: not-found, permission-denied, ... *)
| OtherError (name : string).     (* any exception [except PathError] lets through *)

Inductive result (A : Type) : Type :=
| Ok (a : A)
| Raise (e : exn).
Arguments Ok {A} a.
Arguments Raise {A} e.

Global Instance result_ret : MRet result := fun A a => Ok a.
Global Instance result_bind : MBind result := fun A B k r =>
  match r with
  | Ok a => k a
  | Raise e => Raise e
  end.

(** [f"{v}"] for an integer and for an [Optional[str]]. *)
Definition fmt_int (z : Z) : string := pretty z.

Definition fmt_opt (v : option string) : string :=
  match v with
  | Some s => s
  | None => "None"
  end.

(** Truthiness of an [Optional[str]]: [None] and the empty string are falsy. *)
Definition truthy (v : option string) : bool :=
  match v with
  | Some (String _ _) => true
  | _ => false
  end.

Definition LF : ascii := "010"%char.
Definition CR : ascii := "013"%char.
Definition nl : string := String LF EmptyString.
Definition dq : string := String "034"%char EmptyString.

(** [needle in hay] on strings. *)
Fixpoint contains (needle hay : string) : bool :=
  String.prefix needle hay
  || match hay with
     | EmptyString => false
     | String _ t => contains needle t
     end.

(** [s.split(sep)] for a separator of one character. *)
Fixpoint split (sep : ascii) (s : string) : list string :=
  match s with
  | EmptyString => [EmptyString]
  | String c t =>
      if Ascii.eqb c sep then EmptyString :: split sep t
      else match split sep t with
           | h :: r => String c h :: r
           | [] => [String c EmptyString]
           end
  end.

(** The line boundaries of [str.splitlines] below code point 256. *)
Definition is_linebreak (c : ascii) : bool :=
  match nat_of_ascii c with
  | 10 | 11 | 12 | 13 | 28 | 29 | 30 | 133 => true
  | _ => false
  end%nat.

(** [s.splitlines()]: breaks are dropped, CR LF is one break, and a break
    at the very end opens no further line. *)
Fixpoint splitlines (s : string) : list string :=
  match s with
  | EmptyString => []
  | String c t =>
      if is_linebreak c then
        EmptyString ::
          match t with
          | String c2 t2 =>
              if Ascii.eqb c CR && Ascii.eqb c2 LF then splitlines t2
              else splitlines t
          | EmptyString => []
          end
      else match splitlines t with
           | h :: r => String c h :: r
           | [] => [String c EmptyString]
           end
  end.

(** [sep.join(l)]. *)
Definition join (sep : string) (l : list string) : string := String.concat sep l.

(** [s or <empty string>]. *)
Definition or_empty (s : string) : string :=
  match s with
  | EmptyString => EmptyString
  | _ => s
  end.

(** ** [literals.py] *)

Definition PEER : string := "cluster".
Definition REL_NAME : string := "zookeeper".
Definition CONTAINER : string := "zookeeper".

(** ** Module constants of [config.py] *)

Definition DEFAULT_PROPERTIES : string := "
syncEnabled=true
maxClientCnxns=60
minSessionTimeout=4000
maxSessionTimeout=40000
autopurge.snapRetainCount=3
autopurge.purgeInterval=0
reconfigEnabled=true
standaloneEnabled=false
4lw.commands.whitelist=mntr,srvr
DigestAuthenticationProvider.digestAlg=SHA3-256
quorum.auth.enableSasl=true
quorum.auth.learnerRequireSasl=true
quorum.auth.serverRequireSasl=true
authProvider.sasl=org.apache.zookeeper.server.auth.SASLAuthenticationProvider
audit.enable=true".

Definition TLS_PROPERTIES : string := "
secureClientPort=2182
ssl.clientAuth=none
ssl.quorum.clientAuth=none
ssl.client.enable=true
clientCnxnSocket=org.apache.zookeeper.ClientCnxnSocketNetty
serverCnxnFactory=org.apache.zookeeper.server.NettyServerCnxnFactory
ssl.quorum.hostnameVerification=false
ssl.hostnameVerification=false
ssl.trustStore.type=JKS
ssl.keyStore.type=PKCS12
".

(** ** The charm as [ZooKeeperConfig] reads it *)

(** [self.charm.tls]. *)
Record TLS : Type := {
  enabled : bool;
  upgrading : bool;
  keystore_password : option string
}.

Record Charm : Type := {
  config_data_dir : string;          (* self.charm.config['data-dir'] *)
  config_init_limit : Z;             (* self.charm.config['init-limit'] *)
  config_sync_limit : Z;             (* self.charm.config['sync-limit'] *)
  config_tick_time : Z;              (* self.charm.config['tick-time'] *)
  tls : TLS;                         (* self.charm.tls *)
  quorum : option string;            (* self.charm.cluster.quorum *)
  app_data : gmap string string;     (* self.cluster.data[self.charm.app] *)
  client_relations : list Z          (* ids of self.charm.model.relations[REL_NAME] *)
}.

(** The arguments of one [push(container=, content=, path=)] call. *)
Record PushCall : Type := {
  push_container : string;
  push_content : string;
  push_path : string
}.

(** ** [ZooKeeperConfig] *)

Module ZooKeeperConfig.

(** The attributes set by [__init__]. *)
Definition container (_ : Charm) : string := CONTAINER.
Definition default_config_path (charm : Charm) : string :=
  config_data_dir charm +:+ "/config".
Definition properties_filepath (charm : Charm) : string :=
  default_config_path charm +:+ "/zookeeper.properties".
Definition dynamic_filepath (charm : Charm) : string :=
  default_config_path charm +:+ "/zookeeper-dynamic.properties".
Definition jaas_filepath (charm : Charm) : string :=
  default_config_path charm +:+ "/zookeeper-jaas.cfg".
Definition keystore_filepath (charm : Charm) : string :=
  default_config_path charm +:+ "/keystore.p12".
Definition truststore_filepath (charm : Charm) : string :=
  default_config_path charm +:+ "/truststore.jks".

(** The loop of [jaas_users] over the client relations. *)
Fixpoint jaas_users_loop (data : gmap string string) (relations : list Z) : list string :=
  match relations with
  | [] => []
  | relation_id :: rest =>
      let username := "relation-" +:+ fmt_int relation_id in
      let password := data !! username in
      if negb (truthy (Some username) && truthy password) then
        jaas_users_loop data rest
      else
        ("user_" +:+ username +:+ "=" +:+ dq +:+ fmt_opt password +:+ dq)
          :: jaas_users_loop data rest
  end.

Definition jaas_users (charm : Charm) : list string :=
  match client_relations charm with
  | [] => []
  | relations => jaas_users_loop (app_data charm) relations
  end.

(** The f-string returned by [jaas_config], with its three holes. *)
Definition jaas_text (sync_password users super_password : string) : string :=
  "
            QuorumServer {
                org.apache.zookeeper.server.auth.DigestLoginModule required
                user_sync=" +:+ dq +:+ sync_password +:+ dq +:+ ";
            };
            QuorumLearner {
                org.apache.zookeeper.server.auth.DigestLoginModule required
                username=" +:+ dq +:+ "sync" +:+ dq +:+ "
                password=" +:+ dq +:+ sync_password +:+ dq +:+ ";
            };
            Server {
                org.apache.zookeeper.server.auth.DigestLoginModule required
                " +:+ users +:+ "
                user_super=" +:+ dq +:+ super_password +:+ dq +:+ ";
            };
        ".

Definition jaas_config (charm : Charm) : string :=
  let sync_password := app_data charm !! "sync-password" in
  let super_password := app_data charm !! "super-password" in
  let users := or_empty (join nl (jaas_users charm)) in
  jaas_text (fmt_opt sync_password) users (fmt_opt super_password).

Section WithPull.

(** [pull(container=, path=)] of [utils]: the contents of the file, or the
    exception the call raises. *)
Variable pull : string -> string -> result string.

(** The [for] loop of [current_dynamic_config_file]. *)
Fixpoint scan_dynamic_config (default : string) (current_properties : list string) : string :=
  match current_properties with
  | [] => default
  | current_property :: rest =>
      if contains "dynamicConfigFile" current_property then current_property
      else scan_dynamic_config default rest
  end.

Definition current_dynamic_config_file (charm : Charm) : result string :=
  let default :=
    "dynamicConfigFile=" +:+ default_config_path charm +:+ "/zookeeper-dynamic.properties" in
  match pull (container charm) (properties_filepath charm) with
  | Raise (PathError _) => Ok default
  | Raise e => Raise e
  | Ok contents => Ok (scan_dynamic_config default (splitlines contents))
  end.

Definition zookeeper_properties (charm : Charm) : result (list string) :=
  dynamic_config_file ← current_dynamic_config_file charm;
  let properties :=
    [ "initLimit=" +:+ fmt_int (config_init_limit charm);
      "syncLimit=" +:+ fmt_int (config_sync_limit charm);
      "tickTime=" +:+ fmt_int (config_tick_time charm) ]
    ++ split LF DEFAULT_PROPERTIES
    ++ [ "dataDir=" +:+ default_config_path charm +:+ "/data";
         "dataLogDir=" +:+ default_config_path charm +:+ "/log";
         dynamic_config_file ] in
  let properties :=
    if enabled (tls charm) then
      properties
      ++ split LF TLS_PROPERTIES
      ++ [ "ssl.quorum.keyStore.location=" +:+ keystore_filepath charm;
           "ssl.quorum.trustStore.location=" +:+ truststore_filepath charm;
           "ssl.keyStore.location=" +:+ keystore_filepath charm;
           "ssl.trustStore.location=" +:+ truststore_filepath charm;
           "ssl.keyStore.location=" +:+ keystore_filepath charm;
           "ssl.quorum.keyStore.password=" +:+ fmt_opt (keystore_password (tls charm));
           "ssl.quorum.trustStore.password=" +:+ fmt_opt (keystore_password (tls charm));
           "ssl.keyStore.password=" +:+ fmt_opt (keystore_password (tls charm));
           "ssl.trustStore.password=" +:+ fmt_opt (keystore_password (tls charm)) ]
    else properties in
  let properties :=
    if upgrading (tls charm) then properties ++ ["portUnification=true"] else properties in
  let properties :=
    if bool_decide (quorum charm = Some "ssl") then properties ++ ["sslQuorum=true"]
    else properties in
  mret properties.

(** [set_zookeeper_properties]: the one [push] it makes, when building the
    content raises nothing. *)
Definition set_zookeeper_properties (charm : Charm) : result PushCall :=
  properties ← zookeeper_properties charm;
  mret {| push_container := container charm;
          push_content := join nl properties;
          push_path := properties_filepath charm |}.

End WithPull.

(** [build_static_properties], a static method. *)
Definition build_static_properties (properties : list string) : list string :=
  filter
    (fun prop => contains "clientPort" prop = false /\ contains "secureClientPort" prop = false)
    properties.

Definition static_properties (pull : string -> string -> result string) (charm : Charm)
  : result (list string) :=
  properties ← zookeeper_properties pull charm;
  mret (build_static_properties properties).

(** [kafka_opts]. *)
Definition kafka_opts (charm : Charm) : list string :=
  [ "-Dzookeeper.requireClientAuthScheme=sasl";
    "-Dzookeeper.superUser=super";
    "-Djava.security.auth.login.config=" +:+ jaas_filepath charm;
    "-Djavax.net.debug=ssl:handshake:verbose:keymanager:trustmanager" ].

(** [set_jaas_config], [set_kafka_opts] and
    [set_zookeeper_dynamic_properties]: the [push] each one makes. *)
Definition set_jaas_config (charm : Charm) : PushCall :=
  {| push_container := container charm;
     push_content := jaas_config charm;
     push_path := jaas_filepath charm |}.

Definition set_kafka_opts (charm : Charm) : PushCall :=
  let opts := join " " (kafka_opts charm) in
  {| push_container := container charm;
     push_content := "KAFKA_OPTS='" +:+ opts +:+ "'";
     push_path := "/etc/environment" |}.

Definition set_zookeeper_dynamic_properties (charm : Charm) (servers : string) : PushCall :=
  {| push_container := container charm;
     push_content := servers;
     push_path := dynamic_filepath charm |}.

Section WithUnit.

(** The builtin [int] on a [str], and [self.charm.unit.name]. *)
Variable int : string -> result Z.
Variable unit_name : string.

(** [set_zookeeper_myid]: the subscript [[1]] raises [IndexError] on a
    name without a slash, and whatever [int] raises is passed on. *)
Definition set_zookeeper_myid (charm : Charm) : result PushCall :=
  match split "/" unit_name !! 1%nat with
  | None => Raise (OtherError "IndexError")
  | Some ordinal_text =>
      ordinal ← int ordinal_text;
      mret {| push_container := container charm;
              push_content := fmt_int (ordinal + 1);
              push_path := default_config_path charm +:+ "/data/myid" |}
  end.

End WithUnit.

(** [zookeeper_command]. *)
Definition zookeeper_command (charm : Charm) : string :=
  let entrypoint := "/opt/kafka/bin/zookeeper-server-start.sh" in
  entrypoint +:+ " " +:+ properties_filepath charm.

End ZooKeeperConfig.

(** ** Vocabulary of the statements *)

(** The two transition flags of the quorum migration. *)
Definition PORT_UNIFICATION : string := "portUnification=true".
Definition SSL_QUORUM : string := "sslQuorum=true".

(** The key of a property line: the text before its first [=]; a line
    without [=] (a blank line) is no property and has none. *)
Fixpoint key_of (line : string) : option string :=
  match line with
  | EmptyString => None
  | String c t =>
      if Ascii.eqb c "="%char then Some EmptyString
      else String c <$> key_of t
  end.

(** The keys of a property list, one per property line, in order. *)
Definition keys (properties : list string) : list string := omap key_of properties.

(** The read of the deployed file either returns or raises the exception
    the tracker catches. *)
Definition settles (r : result string) : bool :=
  match r with
  | Raise (OtherError _) => false
  | _ => true
  end.

(** The flags [zookeeper_properties] appends for the migration stage. *)
Definition transition_flags (charm : Charm) : list string :=
  (if upgrading (tls charm) then [PORT_UNIFICATION] else [])
  ++ (if bool_decide (quorum charm = Some "ssl") then [SSL_QUORUM] else []).

(** The three stretches of the list [zookeeper_properties] builds before
    the flags: the tuning lines, the lines up to the dynamic pointer, and
    the lines added when TLS is enabled. *)
Definition tuning_properties (charm : Charm) : list string :=
  [ "initLimit=" +:+ fmt_int (config_init_limit charm);
    "syncLimit=" +:+ fmt_int (config_sync_limit charm);
    "tickTime=" +:+ fmt_int (config_tick_time charm) ].

Definition base_properties (charm : Charm) (dynamic_config_file : string) : list string :=
  split LF DEFAULT_PROPERTIES
  ++ [ "dataDir=" +:+ ZooKeeperConfig.default_config_path charm +:+ "/data";
       "dataLogDir=" +:+ ZooKeeperConfig.default_config_path charm +:+ "/log";
       dynamic_config_file ].

Definition tls_locations (charm : Charm) : list string :=
  [ "ssl.quorum.keyStore.location=" +:+ ZooKeeperConfig.keystore_filepath charm;
    "ssl.quorum.trustStore.location=" +:+ ZooKeeperConfig.truststore_filepath charm;
    "ssl.keyStore.location=" +:+ ZooKeeperConfig.keystore_filepath charm;
    "ssl.trustStore.location=" +:+ ZooKeeperConfig.truststore_filepath charm;
    "ssl.keyStore.location=" +:+ ZooKeeperConfig.keystore_filepath charm ].

Definition tls_passwords (password : string) : list string :=
  [ "ssl.quorum.keyStore.password=" +:+ password;
    "ssl.quorum.trustStore.password=" +:+ password;
    "ssl.keyStore.password=" +:+ password;
    "ssl.trustStore.password=" +:+ password ].

Definition tls_properties (charm : Charm) : list string :=
  if enabled (tls charm) then
    split LF TLS_PROPERTIES
    ++ tls_locations charm
    ++ tls_passwords (fmt_opt (keystore_password (tls charm)))
  else [].

(** A line that is neither transition flag. *)
Definition not_flag (line : string) : Prop :=
  line <> PORT_UNIFICATION /\ line <> SSL_QUORUM.

(** The default pointer to the dynamic file. *)
Definition default_pointer (charm : Charm) : string :=
  "dynamicConfigFile=" +:+ config_data_dir charm +:+ "/config/zookeeper-dynamic.properties".

(** [l] occurs in [s] as a contiguous run of characters. *)
Definition slice_of (l s : string) : Prop := exists a b, s = a +:+ l +:+ b.

(** ** Sample inputs *)

Definition sample_charm : Charm := {|
  config_data_dir := "/var/lib/zookeeper";
  config_init_limit := 5;
  config_sync_limit := 2;
  config_tick_time := 2000;
  tls := {| enabled := false; upgrading := false; keystore_password := None |};
  quorum := Some "non-ssl";
  app_data := {[ "sync-password" := "syncpw"; "super-password" := "superpw" ]};
  client_relations := []
|}.

(** Stage one of a migration: port unification on, quorum still plaintext. *)
Definition migrating_charm : Charm := {|
  config_data_dir := "/var/lib/zookeeper";
  config_init_limit := 5;
  config_sync_limit := 2;
  config_tick_time := 2000;
  tls := {| enabled := true; upgrading := true; keystore_password := Some "kspw" |};
  quorum := Some "non-ssl";
  app_data := {[ "sync-password" := "syncpw"; "super-password" := "superpw" ]};
  client_relations := []
|}.

(** A configuration with non-positive tuning values. *)
Definition untuned_charm : Charm := {|
  config_data_dir := "/var/lib/zookeeper";
  config_init_limit := 0;
  config_sync_limit := -2;
  config_tick_time := 2000;
  tls := {| enabled := false; upgrading := false; keystore_password := None |};
  quorum := Some "non-ssl";
  app_data := {[ "sync-password" := "syncpw"; "super-password" := "superpw" ]};
  client_relations := []
|}.

(** No credential has been issued yet. *)
Definition uncredentialed_charm : Charm := {|
  config_data_dir := "/var/lib/zookeeper";
  config_init_limit := 5;
  config_sync_limit := 2;
  config_tick_time := 2000;
  tls := {| enabled := false; upgrading := false; keystore_password := None |};
  quorum := None;
  app_data := ∅;
  client_relations := []
|}.

(** Two client relations, the second still waiting for its password. *)
Definition serving_charm : Charm := {|
  config_data_dir := "/var/lib/zookeeper";
  config_init_limit := 5;
  config_sync_limit := 2;
  config_tick_time := 2000;
  tls := {| enabled := false; upgrading := false; keystore_password := None |};
  quorum := Some "non-ssl";
  app_data := {[ "sync-password" := "syncpw"; "super-password" := "superpw";
                 "relation-3" := "clientpw" ]};
  client_relations := [3; 4]
|}.

(** TLS enabled on a settled ssl quorum. *)
Definition tls_charm : Charm := {|
  config_data_dir := "/var/lib/zookeeper";
  config_init_limit := 5;
  config_sync_limit := 2;
  config_tick_time := 2000;
  tls := {| enabled := true; upgrading := false; keystore_password := Some "kspw" |};
  quorum := Some "ssl";
  app_data := {[ "sync-password" := "syncpw"; "super-password" := "superpw" ]};
  client_relations := []
|}.

(** A data directory whose path happens to spell [clientPort]. *)
Definition relocated_charm : Charm := {|
  config_data_dir := "/srv/clientPort";
  config_init_limit := 5;
  config_sync_limit := 2;
  config_tick_time := 2000;
  tls := {| enabled := false; upgrading := false; keystore_password := None |};
  quorum := Some "non-ssl";
  app_data := {[ "sync-password" := "syncpw"; "super-password" := "superpw" ]};
  client_relations := []
|}.

Definition pull_missing : string -> string -> result string :=
  fun _ _ => Raise (PathError "not-found").

(** A deployed file whose pointer carries a revision suffix. *)
Definition deployed_contents : string :=
  "initLimit=5
dynamicConfigFile=/cfg/zookeeper-dynamic-v7.properties
dynamicConfigFile=/cfg/stale.properties
tickTime=2000
".

(** A deployed file that lost its pointer line. *)
Definition keyless_contents : string :=
  "initLimit=5
tickTime=2000
".

Definition pull_contents (contents : string) : string -> string -> result string :=
  fun _ _ => Ok contents.

(** ** Vocabulary of the further properties *)

(** Every character of [s] passes the test [p]. *)
Fixpoint all_chars (p : ascii -> bool) (s : string) : bool :=
  match s with
  | EmptyString => true
  | String c t => p c && all_chars p t
  end.

(** [s] is free of the character [c]; [s] is free of line boundaries. *)
Definition lacks (c : ascii) (s : string) : bool :=
  all_chars (fun x => negb (Ascii.eqb x c)) s.

Definition no_break (s : string) : bool :=
  all_chars (fun x => negb (is_linebreak x)) s.

(** The last (the first) character of [a] exists and is not in [n]. *)
Fixpoint last_char_lacks (n a : string) : bool :=
  match a with
  | EmptyString => false
  | String c EmptyString => lacks c n
  | String _ t => last_char_lacks n t
  end.

Definition head_char_lacks (n b : string) : bool :=
  match b with
  | EmptyString => false
  | String c _ => lacks c n
  end.

(** The characters an integer is rendered with. *)
Definition is_numeral_char (c : ascii) : bool :=
  match c with
  | "0" | "1" | "2" | "3" | "4" | "5" | "6" | "7" | "8" | "9" | "-" => true
  | _ => false
  end%char.

(** The line [jaas_users] writes for a relation and its password. *)
Definition user_line (relation_id : Z) (password : string) : string :=
  "user_relation-" +:+ fmt_int relation_id +:+ "=" +:+ dq +:+ password +:+ dq.

(** The test of the comprehension in [build_static_properties]. *)
Definition is_static (prop : string) : Prop :=
  contains "clientPort" prop = false /\ contains "secureClientPort" prop = false.

(** A stand-in for the builtin [int] in the samples: it reads the plain
    decimal numerals [0], [1], ... and refuses every other text (the
    builtin accepts a few more, such as a sign or surrounding blanks). *)
Fixpoint numeral_value (acc : Z) (s : string) : option Z :=
  match s with
  | EmptyString => Some acc
  | String c t =>
      match Ascii.is_nat c with
      | Some d => numeral_value (10 * acc + Z.of_nat d) t
      | None => None
      end
  end.

Definition int_of_numeral (s : string) : result Z :=
  match s with
  | EmptyString => Raise (OtherError "ValueError")
  | _ => match numeral_value 0 s with
         | Some z => Ok z
         | None => Raise (OtherError "ValueError")
         end
  end.


(** The first line whose key is [key]. *)
Definition first_with_key (key : string) (lines : list string) : option string :=
  List.find (fun l => bool_decide (key_of l = Some key)) lines.

(** A deployed file with a comment in front of its pointer line. *)
Definition commented_contents : string :=
  "# dynamicConfigFile is rewritten at runtime
initLimit=5
dynamicConfigFile=/cfg/zookeeper-dynamic-v7.properties
".

(** A deployed file without a pointer line, with a comment about it. *)
Definition commented_keyless_contents : string :=
  "# dynamicConfigFile was removed by hand
initLimit=5
tickTime=2000
".

(** A data directory whose path happens to spell [dynamicConfigFile]. *)
Definition pointer_dir_charm : Charm := {|
  config_data_dir := "/srv/dynamicConfigFile";
  config_init_limit := 5;
  config_sync_limit := 2;
  config_tick_time := 2000;
  tls := {| enabled := false; upgrading := false; keystore_password := None |};
  quorum := Some "non-ssl";
  app_data := {[ "sync-password" := "syncpw"; "super-password" := "superpw" ]};
  client_relations := []
|}.

(** Two client relations, both with a password, the same one. *)
Definition busy_charm : Charm := {|
  config_data_dir := "/var/lib/zookeeper";
  config_init_limit := 5;
  config_sync_limit := 2;
  config_tick_time := 2000;
  tls := {| enabled := false; upgrading := false; keystore_password := None |};
  quorum := Some "non-ssl";
  app_data := {[ "sync-password" := "syncpw"; "super-password" := "superpw";
                 "relation-3" := "clientpw"; "relation-7" := "clientpw" ]};
  client_relations := [3; 7]
|}.

(** A pull that fails for a reason other than the path. *)
Definition pull_disconnected : string -> string -> result string :=
  fun _ _ => Raise (OtherError "ConnectionError").

Example split_default_head :
  take 3 (split LF DEFAULT_PROPERTIES) = [EmptyString; "syncEnabled=true"; "maxClientCnxns=60"].
Proof. reflexivity. Qed.

Example split_tls_shape :
  length (split LF TLS_PROPERTIES) = 12%nat
  /\ last (split LF TLS_PROPERTIES) = Some EmptyString.
Proof. split; reflexivity. Qed.

Example splitlines_crlf :
  splitlines ("a" +:+ String CR nl +:+ "b" +:+ nl +:+ nl +:+ "c" +:+ nl) = ["a"; "b"; EmptyString; "c"].
Proof. reflexivity. Qed.

Example fmt_int_examples :
  fmt_int 0 = "0" /\ fmt_int 2000 = "2000" /\ fmt_int (-5) = "-5".
Proof. repeat split; reflexivity. Qed.

(** ** Strings *)

Lemma prefix_app (p s : string) : String.prefix p (p +:+ s) = true.
Proof.
  induction p as [|c p IH]; simpl.
  - by destruct s.
  - destruct (ascii_dec c c); [exact IH | congruence].
Qed.

Lemma contains_prefix (n s : string) : String.prefix n s = true -> contains n s = true.
Proof. intros H. destruct s; simpl in *; rewrite H; reflexivity. Qed.

Lemma contains_cons (n : string) (c : ascii) (s : string) :
  contains n s = true -> contains n (String c s) = true.
Proof. intros H. simpl. rewrite H. apply orb_true_r. Qed.

Lemma contains_app (a n b : string) : contains n (a +:+ n +:+ b) = true.
Proof.
  induction a as [|c a IH].
  - change (contains n (n +:+ b) = true). apply contains_prefix, prefix_app.
  - change (contains n (String c (a +:+ n +:+ b)) = true). by apply contains_cons.
Qed.

Lemma prefix_split (p s : string) :
  String.prefix p s = true -> exists b, s = p +:+ b.
Proof.
  revert s. induction p as [|c p IH]; intros s H.
  - by exists s.
  - destruct s as [|d s]; simpl in H; [discriminate|].
    destruct (ascii_dec c d) as [->|]; [|discriminate].
    destruct (IH _ H) as [b ->]. by exists b.
Qed.

Lemma contains_split (n s : string) :
  contains n s = true -> exists a b, s = a +:+ n +:+ b.
Proof.
  induction s as [|c s IH]; cbn [contains]; intros H.
  - rewrite orb_false_r in H. destruct (prefix_split _ _ H) as [b Hb].
    by exists EmptyString, b.
  - apply orb_true_iff in H as [H|H].
    + destruct (prefix_split _ _ H) as [b Hb]. by exists EmptyString, b.
    + destruct (IH H) as (a & b & ->). by exists (String c a), b.
Qed.

Lemma app_assoc_str (a b c : string) : (a +:+ b) +:+ c = a +:+ b +:+ c.
Proof. induction a as [|x a IH]; simpl; [done | by f_equal]. Qed.

(** ** [splitlines]: every line is a slice of the text *)

Lemma slice_of_cons (c : ascii) (l s : string) : slice_of l s -> slice_of l (String c s).
Proof. intros (a & b & ->). by exists (String c a), b. Qed.

Lemma slice_of_empty (s : string) : slice_of EmptyString s.
Proof. by exists EmptyString, s. Qed.

Lemma slice_of_extend (c : ascii) (h t : string) (r : list string) :
  splitlines t = h :: r -> exists b, t = h +:+ b.
Proof.
  revert h r. induction t as [|d t IH]; intros h r H; [discriminate|].
  cbn [splitlines] in H. destruct (is_linebreak d).
  - injection H as <- _. by eexists.
  - destruct (splitlines t) as [|h' r'] eqn:E.
    + injection H as <- <-. by exists t.
    + injection H as <- <-. destruct (IH _ _ eq_refl) as [b ->]. by exists b.
Qed.

Lemma splitlines_cons (c : ascii) (t : string) :
  splitlines (String c t) =
    if is_linebreak c then
      EmptyString ::
        match t with
        | String c2 t2 =>
            if Ascii.eqb c CR && Ascii.eqb c2 LF then splitlines t2 else splitlines t
        | EmptyString => []
        end
    else match splitlines t with
         | h :: r => String c h :: r
         | [] => [String c EmptyString]
         end.
Proof. reflexivity. Qed.

Lemma splitlines_slices_step (s : string) :
  (forall l, In l (splitlines s) -> slice_of l s)
  /\ (forall c l, In l (splitlines (String c s)) -> slice_of l (String c s)).
Proof.
  induction s as [|d s [IH1 IH2]].
  - split; [intros l []|].
    intros c l. cbn [splitlines]. destruct (is_linebreak c); intros [<-|[]].
    + apply slice_of_empty.
    + by exists EmptyString, EmptyString.
  - split; [apply IH2|].
    intros c l. rewrite splitlines_cons.
    destruct (is_linebreak c).
    + intros [<-|H]; [apply slice_of_empty|].
      destruct (Ascii.eqb c CR && Ascii.eqb d LF).
      * by apply slice_of_cons, slice_of_cons, IH1.
      * by apply slice_of_cons, IH2.
    + destruct (splitlines (String d s)) as [|h r] eqn:E.
      * intros [<-|[]]. by exists EmptyString, (String d s).
      * intros [<-|H].
        -- destruct (slice_of_extend c _ _ _ E) as [b ->].
           by exists EmptyString, b.
        -- apply slice_of_cons, IH2. rewrite E. by right.
Qed.

Lemma splitlines_slices (s l : string) : In l (splitlines s) -> slice_of l s.
Proof. apply splitlines_slices_step. Qed.

(** ** The continuity tracker *)

Lemma scan_dynamic_config_default (default : string) (lines : list string) :
  (forall l, In l lines -> contains "dynamicConfigFile" l = false) ->
  ZooKeeperConfig.scan_dynamic_config default lines = default.
Proof.
  induction lines as [|x lines IH]; intros H; [done|].
  cbn [ZooKeeperConfig.scan_dynamic_config].
  rewrite (H x) by (by left). apply IH. intros l Hl. apply H. by right.
Qed.

Lemma scan_dynamic_config_first (default : string) (lines : list string) :
  (exists l, In l lines /\ contains "dynamicConfigFile" l = true) ->
  exists pre l post,
    lines = pre ++ l :: post
    /\ (forall x, In x pre -> contains "dynamicConfigFile" x = false)
    /\ contains "dynamicConfigFile" l = true
    /\ ZooKeeperConfig.scan_dynamic_config default lines = l.
Proof.
  induction lines as [|x lines IH]; intros (l & Hl & Hk); [destruct Hl|].
  cbn [ZooKeeperConfig.scan_dynamic_config].
  destruct (contains "dynamicConfigFile" x) eqn:Hx.
  - exists [], x, lines. repeat split; [intros ? []|done].
  - destruct Hl as [->|Hl]; [congruence|].
    destruct IH as (pre & l' & post & -> & Hpre & Hl' & Hscan); [by exists l|].
    exists (x :: pre), l', post. repeat split; [|done..].
    intros y [<-|Hy]; [done|by apply Hpre].
Qed.

Lemma default_pointer_eq (charm : Charm) :
  "dynamicConfigFile=" +:+ ZooKeeperConfig.default_config_path charm
     +:+ "/zookeeper-dynamic.properties"
  = default_pointer charm.
Proof.
  unfold default_pointer, ZooKeeperConfig.default_config_path.
  by rewrite !app_assoc_str.
Qed.

(** What the tracker does on a file it can read: when some line contains
    the text [dynamicConfigFile], it returns the first such line of
    [splitlines], unchanged: the lines before it lack the text, and the
    line is a contiguous slice of the file contents. *)
Theorem current_dynamic_config_file_verbatim
    (pull : string -> string -> result string) (charm : Charm) (contents : string) :
  pull (ZooKeeperConfig.container charm) (ZooKeeperConfig.properties_filepath charm)
    = Ok contents ->
  (exists l, In l (splitlines contents) /\ contains "dynamicConfigFile" l = true) ->
  exists pre l post,
    splitlines contents = pre ++ l :: post
    /\ (forall x, In x pre -> contains "dynamicConfigFile" x = false)
    /\ contains "dynamicConfigFile" l = true
    /\ slice_of l contents
    /\ ZooKeeperConfig.current_dynamic_config_file pull charm = Ok l.
Proof.
  intros Hpull Hex.
  destruct (scan_dynamic_config_first (default_pointer charm) _ Hex)
    as (pre & l & post & Hlines & Hpre & Hl & Hscan).
  exists pre, l, post. repeat split; try done.
  - apply splitlines_slices. rewrite Hlines. apply in_elt.
  - unfold ZooKeeperConfig.current_dynamic_config_file.
    rewrite Hpull, default_pointer_eq. by rewrite Hscan.
Qed.

Lemma current_dynamic_config_file_verbatim_witness :
  exists pre l post,
    splitlines deployed_contents = pre ++ l :: post
    /\ (forall x, In x pre -> contains "dynamicConfigFile" x = false)
    /\ contains "dynamicConfigFile" l = true
    /\ slice_of l deployed_contents
    /\ ZooKeeperConfig.current_dynamic_config_file (pull_contents deployed_contents) sample_charm
       = Ok l.
Proof.
  apply (current_dynamic_config_file_verbatim
           (pull_contents deployed_contents) sample_charm deployed_contents).
  - reflexivity.
  - exists "dynamicConfigFile=/cfg/zookeeper-dynamic-v7.properties".
    split; [vm_compute; auto | reflexivity].
Defined.

Example current_dynamic_config_file_revision :
  ZooKeeperConfig.current_dynamic_config_file (pull_contents deployed_contents) sample_charm
  = Ok "dynamicConfigFile=/cfg/zookeeper-dynamic-v7.properties".
Proof. reflexivity. Qed.

(** The two ways to the default pointer: reading the static file raises
    [PathError], or the file is read and none of its lines contains the
    text [dynamicConfigFile]. *)
Theorem current_dynamic_config_file_default
    (pull : string -> string -> result string) (charm : Charm) :
  (forall kind,
      pull (ZooKeeperConfig.container charm) (ZooKeeperConfig.properties_filepath charm)
        = Raise (PathError kind) ->
      ZooKeeperConfig.current_dynamic_config_file pull charm = Ok (default_pointer charm))
  /\ (forall contents,
      pull (ZooKeeperConfig.container charm) (ZooKeeperConfig.properties_filepath charm)
        = Ok contents ->
      (forall l, In l (splitlines contents) -> contains "dynamicConfigFile" l = false) ->
      ZooKeeperConfig.current_dynamic_config_file pull charm = Ok (default_pointer charm)).
Proof.
  split.
  - intros kind Hpull. unfold ZooKeeperConfig.current_dynamic_config_file.
    by rewrite Hpull, default_pointer_eq.
  - intros contents Hpull Hnone. unfold ZooKeeperConfig.current_dynamic_config_file.
    rewrite Hpull, default_pointer_eq. by rewrite scan_dynamic_config_default.
Qed.

Lemma current_dynamic_config_file_default_witness :
  ZooKeeperConfig.current_dynamic_config_file pull_missing sample_charm
    = Ok "dynamicConfigFile=/var/lib/zookeeper/config/zookeeper-dynamic.properties"
  /\ ZooKeeperConfig.current_dynamic_config_file (pull_contents keyless_contents) sample_charm
    = Ok "dynamicConfigFile=/var/lib/zookeeper/config/zookeeper-dynamic.properties".
Proof.
  split.
  - apply (proj1 (current_dynamic_config_file_default pull_missing sample_charm) "not-found").
    reflexivity.
  - apply (proj2 (current_dynamic_config_file_default
                    (pull_contents keyless_contents) sample_charm) keyless_contents).
    + reflexivity.
    + vm_compute. intros l [<-|[<-|[]]]; reflexivity.
Defined.

(** ** The property assembler *)

Lemma scan_dynamic_config_key (default : string) (lines : list string) :
  contains "dynamicConfigFile" default = true ->
  contains "dynamicConfigFile" (ZooKeeperConfig.scan_dynamic_config default lines) = true.
Proof.
  intros Hd. induction lines as [|x lines IH]; [done|].
  cbn [ZooKeeperConfig.scan_dynamic_config].
  by destruct (contains "dynamicConfigFile" x) eqn:Hx.
Qed.

Lemma default_pointer_key (charm : Charm) :
  contains "dynamicConfigFile" (default_pointer charm) = true.
Proof.
  unfold default_pointer.
  change ("dynamicConfigFile=" +:+ ?x) with ("dynamicConfigFile" +:+ "=" +:+ x).
  apply contains_prefix, prefix_app.
Qed.

Lemma current_dynamic_config_file_key
    (pull : string -> string -> result string) (charm : Charm) (dyn : string) :
  ZooKeeperConfig.current_dynamic_config_file pull charm = Ok dyn ->
  contains "dynamicConfigFile" dyn = true.
Proof.
  unfold ZooKeeperConfig.current_dynamic_config_file. rewrite default_pointer_eq.
  destruct (pull _ _) as [contents|[kind|name]]; intros [= <-].
  - apply scan_dynamic_config_key, default_pointer_key.
  - apply default_pointer_key.
Qed.

Lemma current_dynamic_config_file_settles
    (pull : string -> string -> result string) (charm : Charm) :
  settles (pull (ZooKeeperConfig.container charm) (ZooKeeperConfig.properties_filepath charm))
    = true ->
  exists dyn, ZooKeeperConfig.current_dynamic_config_file pull charm = Ok dyn.
Proof.
  unfold ZooKeeperConfig.current_dynamic_config_file.
  destruct (pull _ _) as [contents|[kind|name]]; [by eexists..|discriminate].
Qed.

Lemma zookeeper_properties_eq
    (pull : string -> string -> result string) (charm : Charm) (dyn : string) :
  ZooKeeperConfig.current_dynamic_config_file pull charm = Ok dyn ->
  ZooKeeperConfig.zookeeper_properties pull charm
  = Ok (tuning_properties charm ++ base_properties charm dyn
        ++ tls_properties charm ++ transition_flags charm).
Proof.
  intros Hdyn. unfold ZooKeeperConfig.zookeeper_properties.
  rewrite Hdyn. cbn [mbind result_bind mret result_ret]. f_equal.
  unfold tuning_properties, base_properties, tls_properties, tls_locations, tls_passwords,
    transition_flags, PORT_UNIFICATION, SSL_QUORUM.
  destruct (enabled (tls charm)), (upgrading (tls charm)), (bool_decide _);
    rewrite <- ?app_assoc, ?app_nil_r; reflexivity.
Qed.

Lemma default_properties_no_flag : Forall not_flag (split LF DEFAULT_PROPERTIES).
Proof. unfold not_flag. compute_done. Qed.

Lemma tls_baseline_no_flag : Forall not_flag (split LF TLS_PROPERTIES).
Proof. unfold not_flag. compute_done. Qed.

Lemma key_line_no_flag (line : string) :
  contains "dynamicConfigFile" line = true -> not_flag line.
Proof. intros H. split; intros ->; vm_compute in H; discriminate. Qed.

Lemma body_no_flag (charm : Charm) (dyn : string) :
  contains "dynamicConfigFile" dyn = true ->
  Forall not_flag (tuning_properties charm ++ base_properties charm dyn ++ tls_properties charm).
Proof.
  intros Hdyn.
  unfold tuning_properties, base_properties, tls_properties, tls_locations, tls_passwords.
  repeat apply Forall_app_2.
  - repeat constructor; discriminate.
  - apply default_properties_no_flag.
  - repeat constructor; try discriminate; by apply key_line_no_flag.
  - destruct (enabled (tls charm)); [|constructor].
    repeat apply Forall_app_2; [apply tls_baseline_no_flag|..];
      repeat constructor; discriminate.
Qed.

(** The transition flags are the last lines of the list: everything
    before them is neither flag. *)
Lemma zookeeper_properties_flags_last
    (pull : string -> string -> result string) (charm : Charm) :
  settles (pull (ZooKeeperConfig.container charm) (ZooKeeperConfig.properties_filepath charm))
    = true ->
  exists body,
    ZooKeeperConfig.zookeeper_properties pull charm = Ok (body ++ transition_flags charm)
    /\ Forall not_flag body.
Proof.
  intros Hs. destruct (current_dynamic_config_file_settles _ _ Hs) as [dyn Hdyn].
  exists (tuning_properties charm ++ base_properties charm dyn ++ tls_properties charm).
  split.
  - rewrite (zookeeper_properties_eq _ _ _ Hdyn). by rewrite <- !app_assoc.
  - eapply body_no_flag, current_dynamic_config_file_key, Hdyn.
Qed.

Lemma in_flags_only (flag : string) (body flags : list string) :
  Forall (fun l => l <> flag) body -> In flag (body ++ flags) <-> In flag flags.
Proof.
  intros Hbody. rewrite in_app_iff. split; [|by right].
  intros [H|H]; [|done]. rewrite Forall_forall in Hbody.
  apply list_elem_of_In in H. by destruct (Hbody _ H).
Qed.

(** C1. The assembled list carries the flags of the migration stage and
    no others: [portUnification=true] without [sslQuorum=true] when
    upgrading with a quorum mode other than ssl, both when upgrading with
    quorum mode ssl, [sslQuorum=true] alone when not upgrading with quorum
    mode ssl, and neither in the plaintext state. *)
Theorem zookeeper_properties_migration_flags
    (pull : string -> string -> result string) (charm : Charm) :
  settles (pull (ZooKeeperConfig.container charm) (ZooKeeperConfig.properties_filepath charm))
    = true ->
  exists properties,
    ZooKeeperConfig.zookeeper_properties pull charm = Ok properties
    /\ match upgrading (tls charm), bool_decide (quorum charm = Some "ssl") with
       | true, false => In "portUnification=true" properties /\ ~ In "sslQuorum=true" properties
       | true, true => In "portUnification=true" properties /\ In "sslQuorum=true" properties
       | false, true => ~ In "portUnification=true" properties /\ In "sslQuorum=true" properties
       | false, false =>
           ~ In "portUnification=true" properties /\ ~ In "sslQuorum=true" properties
       end.
Proof.
  intros Hs. destruct (zookeeper_properties_flags_last _ _ Hs) as (body & Heq & Hbody).
  exists (body ++ transition_flags charm). split; [done|].
  assert (Hp : Forall (fun l => l <> "portUnification=true") body)
    by (eapply Forall_impl; [exact Hbody | by intros l []]).
  assert (Hq : Forall (fun l => l <> "sslQuorum=true") body)
    by (eapply Forall_impl; [exact Hbody | by intros l []]).
  pose proof (in_flags_only _ _ (transition_flags charm) Hp) as Ep.
  pose proof (in_flags_only _ _ (transition_flags charm) Hq) as Eq.
  revert Ep Eq. generalize (body ++ transition_flags charm). intros properties.
  unfold transition_flags, PORT_UNIFICATION, SSL_QUORUM.
  destruct (upgrading (tls charm)), (bool_decide _); cbn [app In];
    intros -> ->; intuition discriminate.
Qed.

Lemma zookeeper_properties_migration_flags_witness :
  exists properties,
    ZooKeeperConfig.zookeeper_properties pull_missing migrating_charm = Ok properties
    /\ In "portUnification=true" properties /\ ~ In "sslQuorum=true" properties.
Proof.
  apply (zookeeper_properties_migration_flags pull_missing migrating_charm).
  reflexivity.
Defined.

(** C4, as the code has it. No tuning value is validated: whatever the
    three integers are, positive or not, the assembler returns a list that
    opens with them rendered in decimal, and [set_zookeeper_properties]
    pushes that list to the properties file. *)
Theorem zookeeper_properties_no_validation
    (pull : string -> string -> result string) (charm : Charm) :
  settles (pull (ZooKeeperConfig.container charm) (ZooKeeperConfig.properties_filepath charm))
    = true ->
  exists rest,
    let properties :=
      ("initLimit=" +:+ fmt_int (config_init_limit charm))
        :: ("syncLimit=" +:+ fmt_int (config_sync_limit charm))
        :: ("tickTime=" +:+ fmt_int (config_tick_time charm))
        :: rest in
    ZooKeeperConfig.zookeeper_properties pull charm = Ok properties
    /\ ZooKeeperConfig.set_zookeeper_properties pull charm
       = Ok {| push_container := CONTAINER;
               push_content := join nl properties;
               push_path := ZooKeeperConfig.properties_filepath charm |}.
Proof.
  intros Hs. destruct (current_dynamic_config_file_settles _ _ Hs) as [dyn Hdyn].
  exists (base_properties charm dyn ++ tls_properties charm ++ transition_flags charm).
  cbn zeta. unfold ZooKeeperConfig.set_zookeeper_properties.
  rewrite (zookeeper_properties_eq _ _ _ Hdyn). by split.
Qed.

Lemma zookeeper_properties_no_validation_witness :
  exists rest,
    ZooKeeperConfig.zookeeper_properties pull_missing untuned_charm
    = Ok ("initLimit=0" :: "syncLimit=-2" :: "tickTime=2000" :: rest)
    /\ ZooKeeperConfig.set_zookeeper_properties pull_missing untuned_charm
       = Ok {| push_container := "zookeeper";
               push_content :=
                 join nl ("initLimit=0" :: "syncLimit=-2" :: "tickTime=2000" :: rest);
               push_path := "/var/lib/zookeeper/config/zookeeper.properties" |}.
Proof.
  apply (zookeeper_properties_no_validation pull_missing untuned_charm).
  reflexivity.
Defined.

(** C4 as stated fails: with init-limit 0 and sync-limit -2 the assembler
    raises nothing, and the write goes ahead. *)
Lemma zookeeper_properties_accepts_nonpositive :
  config_init_limit untuned_charm <= 0
  /\ config_sync_limit untuned_charm <= 0
  /\ (forall e, ZooKeeperConfig.zookeeper_properties pull_missing untuned_charm <> Raise e)
  /\ (exists properties,
        ZooKeeperConfig.zookeeper_properties pull_missing untuned_charm = Ok properties
        /\ take 3 properties = ["initLimit=0"; "syncLimit=-2"; "tickTime=2000"])
  /\ (exists call,
        ZooKeeperConfig.set_zookeeper_properties pull_missing untuned_charm = Ok call).
Proof.
  repeat split; [done | done | by intros e | by eexists | by eexists].
Qed.

(** ** The auth config generator *)

Lemma contains_app_r (n a s : string) :
  contains n s = true -> contains n (a +:+ s) = true.
Proof.
  intros H. induction a as [|c a IH]; [done|].
  change (contains n (String c (a +:+ s)) = true). by apply contains_cons.
Qed.

Lemma jaas_users_loop_eq (charm : Charm) :
  ZooKeeperConfig.jaas_users charm
  = ZooKeeperConfig.jaas_users_loop (app_data charm) (client_relations charm).
Proof. unfold ZooKeeperConfig.jaas_users. by destruct (client_relations charm). Qed.


(** C5, as the code has it. Generating the auth configuration never
    fails on an absent password: an absent sync password is written as the
    text [None] in the [user_sync] and [password] entries, an absent super
    password as [None] in the [user_super] entry. *)
Theorem jaas_config_absent_password (charm : Charm) :
  (app_data charm !! "sync-password" = None ->
   contains ("user_sync=" +:+ dq +:+ "None" +:+ dq +:+ ";")
     (ZooKeeperConfig.jaas_config charm) = true
   /\ contains ("password=" +:+ dq +:+ "None" +:+ dq +:+ ";")
       (ZooKeeperConfig.jaas_config charm) = true)
  /\ (app_data charm !! "super-password" = None ->
      contains ("user_super=" +:+ dq +:+ "None" +:+ dq +:+ ";")
        (ZooKeeperConfig.jaas_config charm) = true).
Proof.
  unfold ZooKeeperConfig.jaas_config. split.
  - intros ->. generalize (or_empty (join nl (ZooKeeperConfig.jaas_users charm))).
    generalize (fmt_opt (app_data charm !! "super-password")).
    intros super users. split; vm_compute; reflexivity.
  - intros ->. unfold ZooKeeperConfig.jaas_text.
    repeat first [ solve [vm_compute; reflexivity] | apply contains_app_r ].
Qed.

Lemma jaas_config_absent_password_witness :
  contains ("user_sync=" +:+ dq +:+ "None" +:+ dq +:+ ";")
    (ZooKeeperConfig.jaas_config uncredentialed_charm) = true
  /\ contains ("user_super=" +:+ dq +:+ "None" +:+ dq +:+ ";")
      (ZooKeeperConfig.jaas_config uncredentialed_charm) = true.
Proof.
  split.
  - apply (proj1 (jaas_config_absent_password uncredentialed_charm)). reflexivity.
  - apply (proj2 (jaas_config_absent_password uncredentialed_charm)). reflexivity.
Defined.

(** C5 as stated fails: with neither password in the databag the
    generator returns the three blocks, the text [None] in place of the
    passwords. *)
Lemma jaas_config_without_credentials :
  app_data uncredentialed_charm !! "sync-password" = None
  /\ app_data uncredentialed_charm !! "super-password" = None
  /\ ZooKeeperConfig.jaas_config uncredentialed_charm
     = ZooKeeperConfig.jaas_text "None" EmptyString "None".
Proof. repeat split. Qed.

Lemma contains_app_l (n a b : string) :
  contains n a = true -> contains n (a +:+ b) = true.
Proof.
  intros H. destruct (contains_split _ _ H) as (x & y & ->).
  rewrite !app_assoc_str. apply contains_app.
Qed.



Example jaas_config_serving :
  ZooKeeperConfig.jaas_config serving_charm
  = ZooKeeperConfig.jaas_text "syncpw" ("user_relation-3=" +:+ dq +:+ "clientpw" +:+ dq) "superpw".
Proof. reflexivity. Qed.

(** ** TLS passwords and repeated keys *)

(** C10. With TLS enabled, the four password lines appended after the
    key and trust store locations all carry the one keystore password of
    the charm, the two trust store lines included; only the transition
    flags follow them. *)
Theorem zookeeper_properties_single_password
    (pull : string -> string -> result string) (charm : Charm) :
  enabled (tls charm) = true ->
  settles (pull (ZooKeeperConfig.container charm) (ZooKeeperConfig.properties_filepath charm))
    = true ->
  exists before,
    let password := fmt_opt (keystore_password (tls charm)) in
    ZooKeeperConfig.zookeeper_properties pull charm
    = Ok (before
          ++ [ "ssl.quorum.keyStore.password=" +:+ password;
               "ssl.quorum.trustStore.password=" +:+ password;
               "ssl.keyStore.password=" +:+ password;
               "ssl.trustStore.password=" +:+ password ]
          ++ transition_flags charm).
Proof.
  intros Htls Hs. destruct (current_dynamic_config_file_settles _ _ Hs) as [dyn Hdyn].
  exists (tuning_properties charm ++ base_properties charm dyn
          ++ split LF TLS_PROPERTIES ++ tls_locations charm).
  cbn zeta. rewrite (zookeeper_properties_eq _ _ _ Hdyn).
  unfold tls_properties. rewrite Htls. unfold tls_passwords.
  by rewrite <- !app_assoc.
Qed.

Lemma zookeeper_properties_single_password_witness :
  exists before,
    ZooKeeperConfig.zookeeper_properties pull_missing tls_charm
    = Ok (before
          ++ [ "ssl.quorum.keyStore.password=kspw";
               "ssl.quorum.trustStore.password=kspw";
               "ssl.keyStore.password=kspw";
               "ssl.trustStore.password=kspw" ]
          ++ ["sslQuorum=true"]).
Proof.
  apply (zookeeper_properties_single_password pull_missing tls_charm); reflexivity.
Defined.

(** C2 fails where TLS is enabled: the key [ssl.keyStore.location] is
    written on two lines of the assembled list. *)
Lemma zookeeper_properties_tls_repeats_key :
  exists properties,
    ZooKeeperConfig.zookeeper_properties pull_missing tls_charm = Ok properties
    /\ count_occ string_dec (keys properties) "ssl.keyStore.location" = 2%nat
    /\ ~ NoDup (keys properties).
Proof.
  eexists. split; [vm_compute; reflexivity|]. split; [reflexivity|].
  compute_done.
Qed.

(** The same holds whatever the rest of the input: with TLS enabled the
    keys of the list repeat. *)
Lemma zookeeper_properties_tls_keys_repeat
    (pull : string -> string -> result string) (charm : Charm) :
  enabled (tls charm) = true ->
  settles (pull (ZooKeeperConfig.container charm) (ZooKeeperConfig.properties_filepath charm))
    = true ->
  exists properties,
    ZooKeeperConfig.zookeeper_properties pull charm = Ok properties
    /\ ~ NoDup (keys properties).
Proof.
  intros Htls Hs. destruct (current_dynamic_config_file_settles _ _ Hs) as [dyn Hdyn].
  eexists. split; [exact (zookeeper_properties_eq _ _ _ Hdyn)|].
  unfold tls_properties. rewrite Htls. unfold keys.
  rewrite !omap_app. intros Hnodup.
  apply NoDup_app in Hnodup as (_ & _ & Hnodup).
  apply NoDup_app in Hnodup as (_ & _ & Hnodup).
  apply NoDup_app in Hnodup as (Hnodup & _ & _).
  apply NoDup_app in Hnodup as (_ & _ & Hnodup).
  apply NoDup_app in Hnodup as (Hnodup & _ & _).
  unfold tls_locations in Hnodup. cbn in Hnodup.
  apply NoDup_cons in Hnodup as [_ Hnodup].
  apply NoDup_cons in Hnodup as [_ Hnodup].
  apply NoDup_cons in Hnodup as [Hin _].
  apply Hin. set_solver.
Qed.

(** X17. Without TLS no key repeats in the assembled list, as long as the
    line the tracker returns has the key [dynamicConfigFile]. *)
Lemma zookeeper_properties_keys_unique_without_tls
    (pull : string -> string -> result string) (charm : Charm) (dyn : string) :
  enabled (tls charm) = false ->
  ZooKeeperConfig.current_dynamic_config_file pull charm = Ok dyn ->
  key_of dyn = Some "dynamicConfigFile" ->
  exists properties,
    ZooKeeperConfig.zookeeper_properties pull charm = Ok properties
    /\ NoDup (keys properties).
Proof.
  intros Htls Hdyn Hkey.
  eexists. split; [exact (zookeeper_properties_eq _ _ _ Hdyn)|].
  unfold tls_properties, transition_flags, base_properties, tuning_properties, keys.
  rewrite Htls, !omap_app.
  let l := eval vm_compute in (omap key_of (split LF DEFAULT_PROPERTIES)) in
  change (omap key_of (split LF DEFAULT_PROPERTIES)) with l.
  cbn [omap list_omap]. rewrite Hkey.
  destruct (upgrading (tls charm)), (bool_decide _); cbn; compute_done.
Qed.

(** ** The static/dynamic partitioner *)

Lemma key_of_prefix (line key : string) :
  key_of line = Some key -> exists rest, line = key +:+ "=" +:+ rest.
Proof.
  revert key. induction line as [|c line IH]; intros key; cbn [key_of]; [done|].
  destruct (Ascii.eqb c "=") eqn:Hc.
  - intros [= <-]. apply Ascii.eqb_eq in Hc as ->. by exists line.
  - destruct (key_of line) as [k|]; [|done]. intros [= <-].
    destruct (IH k eq_refl) as [rest ->]. by exists rest.
Qed.

Lemma key_of_contains (line key : string) :
  key_of line = Some key -> contains key line = true.
Proof.
  intros H. destruct (key_of_prefix _ _ H) as [rest ->].
  apply contains_prefix, prefix_app.
Qed.

(** C7. Partitioning an already partitioned list changes nothing. *)
Theorem build_static_properties_idempotent (properties : list string) :
  ZooKeeperConfig.build_static_properties (ZooKeeperConfig.build_static_properties properties)
  = ZooKeeperConfig.build_static_properties properties.
Proof.
  unfold ZooKeeperConfig.build_static_properties.
  induction properties as [|prop properties IH]; [done|].
  rewrite filter_cons. case_decide as Hprop; [|exact IH].
  by rewrite filter_cons_True, IH.
Qed.

(** What the partitioner does for every list: it drops exactly the lines
    that contain the text [clientPort] or [secureClientPort] anywhere,
    which covers every line with one of these two keys; the lines it keeps
    stay in their order, unchanged and as often as they occurred. *)
Theorem build_static_properties_filter (properties : list string) :
  ZooKeeperConfig.build_static_properties properties `sublist_of` properties
  /\ (forall prop,
        prop ∈ ZooKeeperConfig.build_static_properties properties
        <-> prop ∈ properties
            /\ contains "clientPort" prop = false
            /\ contains "secureClientPort" prop = false)
  /\ (forall prop,
        contains "clientPort" prop = false ->
        contains "secureClientPort" prop = false ->
        count_occ string_dec (ZooKeeperConfig.build_static_properties properties) prop
        = count_occ string_dec properties prop)
  /\ (forall prop,
        key_of prop = Some "clientPort" \/ key_of prop = Some "secureClientPort" ->
        prop ∉ ZooKeeperConfig.build_static_properties properties).
Proof.
  unfold ZooKeeperConfig.build_static_properties. split; [|split; [|split]].
  - apply sublist_filter.
  - intros prop. rewrite list_elem_of_filter. tauto.
  - intros prop H1 H2. induction properties as [|x properties IH]; [done|].
    rewrite filter_cons. case_decide as Hx.
    + cbn [count_occ]. by rewrite IH.
    + cbn [count_occ]. destruct (string_dec x prop) as [->|]; [|exact IH].
      by destruct Hx.
  - intros prop Hkey Hin. apply list_elem_of_filter in Hin as [[H1 H2] _].
    destruct Hkey as [Hkey|Hkey]; apply key_of_contains in Hkey; congruence.
Qed.

(** C8 fails on the code. The partitioner is to remove the properties
    whose key is [clientPort] or [secureClientPort] and no others; it also
    removes a [dataDir] line whose path has the text [clientPort] in it. *)
Lemma build_static_properties_drops_data_dir :
  key_of "dataDir=/srv/clientPort/config/data" = Some "dataDir"
  /\ ZooKeeperConfig.build_static_properties
       ["tickTime=2000"; "dataDir=/srv/clientPort/config/data"; "clientPort=2181"]
     = ["tickTime=2000"].
Proof. split; reflexivity. Qed.

Example static_properties_loses_data_dir :
  exists properties static,
    ZooKeeperConfig.zookeeper_properties pull_missing relocated_charm = Ok properties
    /\ ZooKeeperConfig.static_properties pull_missing relocated_charm = Ok static
    /\ "dataDir=/srv/clientPort/config/data" ∈ properties
    /\ "dataDir=/srv/clientPort/config/data" ∉ static.
Proof.
  do 2 eexists. split; [vm_compute; reflexivity|]. split; [vm_compute; reflexivity|].
  split; compute_done.
Qed.

(** * Further properties of [config.py] *)

(** ** Characters of the generated texts *)

Lemma all_chars_app (p : ascii -> bool) (a b : string) :
  all_chars p (a +:+ b) = all_chars p a && all_chars p b.
Proof.
  induction a as [|c a IH]; [done|].
  change (all_chars p (String c (a +:+ b)) = all_chars p (String c a) && all_chars p b).
  cbn [all_chars]. by rewrite IH, andb_assoc.
Qed.

Lemma all_chars_impl (p q : ascii -> bool) (s : string) :
  (forall c, p c = true -> q c = true) -> all_chars p s = true -> all_chars q s = true.
Proof.
  intros Hpq. induction s as [|c s IH]; [done|]. cbn [all_chars].
  rewrite !andb_true_iff. intros [Hc Hs]. split; [by apply Hpq | by apply IH].
Qed.

Lemma pretty_N_go_numeral (x : N) (s : string) :
  all_chars is_numeral_char s = true ->
  all_chars is_numeral_char (pretty_N_go x s) = true.
Proof.
  revert s. induction (N.lt_wf_0 x) as [x _ IH]; intros s Hs.
  destruct (decide (x = 0)%N) as [->|Hx]; [by rewrite pretty_N_go_0|].
  rewrite pretty_N_go_step by lia. apply IH.
  - apply N.div_lt; lia.
  - cbn [all_chars]. rewrite Hs, andb_true_r.
    unfold pretty_N_char. by repeat case_match.
Qed.

Lemma fmt_int_numeral (z : Z) : all_chars is_numeral_char (fmt_int z) = true.
Proof.
  assert (HN : forall n : N, all_chars is_numeral_char (pretty n) = true).
  { intros n. unfold pretty, pretty_N. case_decide; [done|].
    by apply pretty_N_go_numeral. }
  unfold fmt_int, pretty, pretty_Z. destruct z as [|p|p]; [done|apply HN|].
  change (all_chars is_numeral_char (String "-" (pretty (N.pos p))) = true).
  cbn [all_chars]. apply HN.
Qed.

Lemma fmt_int_lacks (c : ascii) (z : Z) :
  is_numeral_char c = false -> lacks c (fmt_int z) = true.
Proof.
  intros Hc. apply (all_chars_impl is_numeral_char); [|apply fmt_int_numeral].
  intros x Hx. destruct (Ascii.eqb_spec x c) as [->|]; [congruence|done].
Qed.

Lemma fmt_int_no_break (z : Z) : no_break (fmt_int z) = true.
Proof.
  apply (all_chars_impl is_numeral_char); [|apply fmt_int_numeral].
  intros x Hx. unfold is_numeral_char in Hx. by repeat case_match.
Qed.

(** A needle that starts with [c] is nowhere in a text free of [c]. *)
Lemma contains_lacks (c : ascii) (n s : string) :
  lacks c s = true -> contains (String c n) s = false.
Proof.
  induction s as [|x s IH]; [done|]. unfold lacks. cbn [all_chars contains].
  rewrite andb_true_iff, negb_true_iff. intros [Hx Hs]. rewrite (IH Hs), orb_false_r.
  cbn [String.prefix]. destruct (ascii_dec c x) as [->|]; [|done].
  by rewrite Ascii.eqb_refl in Hx.
Qed.

(** A needle free of [c] is found in [a ++ c :: b] on one side of [c]. *)
Lemma prefix_sep (c : ascii) (n a b : string) :
  lacks c n = true -> String.prefix n (a +:+ String c b) = String.prefix n a.
Proof.
  revert n. induction a as [|x a IH]; intros n Hn.
  - destruct n as [|y n]; [done|]. cbn [String.append String.prefix].
    unfold lacks in Hn. cbn [all_chars] in Hn.
    apply andb_true_iff in Hn as [Hy _]. apply negb_true_iff in Hy.
    destruct (ascii_dec y c) as [->|]; [|done]. by rewrite Ascii.eqb_refl in Hy.
  - destruct n as [|y n]; [done|].
    change (String.prefix (String y n) (String x (a +:+ String c b))
            = String.prefix (String y n) (String x a)).
    cbn [String.prefix]. destruct (ascii_dec y x); [|done]. apply IH.
    unfold lacks in *. cbn [all_chars] in Hn. by apply andb_true_iff in Hn as [_ ?].
Qed.

Lemma contains_empty (s : string) : contains EmptyString s = true.
Proof. by destruct s. Qed.

Lemma contains_sep (c : ascii) (n a b : string) :
  lacks c n = true ->
  contains n (a +:+ String c b) = contains n a || contains n b.
Proof.
  intros Hn. induction a as [|x a IH].
  - change (contains n (String c b) = contains n EmptyString || contains n b).
    pose proof (prefix_sep c n EmptyString b Hn) as Hp.
    change (EmptyString +:+ String c b) with (String c b) in Hp.
    cbn [contains]. rewrite Hp. by rewrite orb_false_r.
  - change (contains n (String x (a +:+ String c b))
            = contains n (String x a) || contains n b).
    cbn [contains]. rewrite IH.
    change (String x (a +:+ String c b)) with (String x a +:+ String c b).
    rewrite (prefix_sep c n (String x a) b Hn). by rewrite orb_assoc.
Qed.

(** ** [splitlines] after [join] *)

Lemma splitlines_single (a : string) :
  no_break a = true -> a <> EmptyString -> splitlines a = [a].
Proof.
  induction a as [|c a IH]; [done|]. intros Hb _.
  unfold no_break in Hb. cbn [all_chars] in Hb.
  apply andb_true_iff in Hb as [Hc Ha]. apply negb_true_iff in Hc.
  rewrite splitlines_cons, Hc. destruct a as [|d a]; [done|].
  by rewrite IH.
Qed.

Lemma splitlines_line (a rest : string) :
  no_break a = true -> splitlines (a +:+ nl +:+ rest) = a :: splitlines rest.
Proof.
  induction a as [|c a IH]; intros Hb.
  - change (splitlines (String LF rest) = EmptyString :: splitlines rest).
    rewrite splitlines_cons. by destruct rest.
  - unfold no_break in Hb. cbn [all_chars] in Hb.
    apply andb_true_iff in Hb as [Hc Ha]. apply negb_true_iff in Hc.
    change (splitlines (String c (a +:+ nl +:+ rest)) = String c a :: splitlines rest).
    by rewrite splitlines_cons, Hc, IH.
Qed.

Lemma splitlines_join (lines : list string) :
  Forall (fun l => no_break l = true) lines ->
  last lines <> Some EmptyString ->
  splitlines (join nl lines) = lines.
Proof.
  induction lines as [|x lines IH]; [done|]. intros Hb Hlast.
  apply Forall_cons in Hb as [Hx Hb]. destruct lines as [|y lines].
  - apply splitlines_single; [done|]. by intros ->.
  - change (splitlines (x +:+ nl +:+ join nl (y :: lines)) = x :: y :: lines).
    rewrite splitlines_line by done. f_equal. by apply IH.
Qed.

Lemma splitlines_no_break_step (s : string) :
  Forall (fun l => no_break l = true) (splitlines s)
  /\ (forall c, Forall (fun l => no_break l = true) (splitlines (String c s))).
Proof.
  induction s as [|d s [IH1 IH2]].
  - split; [constructor|]. intros c. rewrite splitlines_cons.
    destruct (is_linebreak c) eqn:Hc; repeat constructor.
    unfold no_break. cbn [all_chars]. by rewrite Hc.
  - split; [apply IH2|]. intros c. rewrite splitlines_cons.
    destruct (is_linebreak c) eqn:Hc.
    + constructor; [done|]. by destruct (Ascii.eqb c CR && Ascii.eqb d LF).
    + specialize (IH2 d). destruct (splitlines (String d s)) as [|h r].
      * repeat constructor. unfold no_break. cbn [all_chars]. by rewrite Hc.
      * apply Forall_cons in IH2 as [Hh Hr]. constructor; [|done].
        unfold no_break in *. cbn [all_chars]. by rewrite Hc.
Qed.

Lemma splitlines_no_break (s : string) :
  Forall (fun l => no_break l = true) (splitlines s).
Proof. apply splitlines_no_break_step. Qed.

Lemma scan_dynamic_config_no_break (default : string) (lines : list string) :
  no_break default = true ->
  Forall (fun l => no_break l = true) lines ->
  no_break (ZooKeeperConfig.scan_dynamic_config default lines) = true.
Proof.
  intros Hd. induction 1 as [|x lines Hx _ IH]; [done|].
  cbn [ZooKeeperConfig.scan_dynamic_config]. by destruct (contains _ x).
Qed.

Lemma current_dynamic_config_file_no_break
    (pull : string -> string -> result string) (charm : Charm) (dyn : string) :
  no_break (config_data_dir charm) = true ->
  ZooKeeperConfig.current_dynamic_config_file pull charm = Ok dyn ->
  no_break dyn = true.
Proof.
  intros Hdir. unfold ZooKeeperConfig.current_dynamic_config_file.
  rewrite default_pointer_eq.
  assert (Hdef : no_break (default_pointer charm) = true).
  { unfold default_pointer, no_break. rewrite !all_chars_app.
    fold (no_break (config_data_dir charm)). by rewrite Hdir. }
  destruct (pull _ _) as [contents|[kind|name]]; intros [= <-]; [|done].
  apply scan_dynamic_config_no_break; [done|apply splitlines_no_break].
Qed.

(** X1. Whatever the deployed file holds, the line the tracker returns
    contains [dynamicConfigFile], and it is one line (free of line
    boundaries) whenever the data directory is. *)
Theorem current_dynamic_config_file_one_line
    (pull : string -> string -> result string) (charm : Charm) (dyn : string) :
  ZooKeeperConfig.current_dynamic_config_file pull charm = Ok dyn ->
  contains "dynamicConfigFile" dyn = true
  /\ (no_break (config_data_dir charm) = true -> no_break dyn = true).
Proof.
  intros Hdyn. split.
  - by eapply current_dynamic_config_file_key.
  - intros Hdir. by eapply current_dynamic_config_file_no_break.
Qed.

Lemma current_dynamic_config_file_one_line_witness :
  contains "dynamicConfigFile" "dynamicConfigFile=/cfg/zookeeper-dynamic-v7.properties" = true
  /\ (no_break (config_data_dir sample_charm) = true ->
      no_break "dynamicConfigFile=/cfg/zookeeper-dynamic-v7.properties" = true).
Proof.
  apply (current_dynamic_config_file_one_line (pull_contents deployed_contents) sample_charm).
  reflexivity.
Defined.

(** ** Needles around the variable parts of a line *)

Lemma last_char_split (n a : string) :
  last_char_lacks n a = true ->
  exists a' c, a = a' +:+ String c EmptyString /\ lacks c n = true.
Proof.
  induction a as [|x a IH]; [done|]. cbn [last_char_lacks].
  destruct a as [|y a].
  - intros Hx. by exists EmptyString, x.
  - intros H. destruct (IH H) as (a' & c & -> & Hc).
    by exists (String x a'), c.
Qed.

Lemma contains_after (n a x : string) :
  last_char_lacks n a = true ->
  contains n a = false -> contains n x = false -> contains n (a +:+ x) = false.
Proof.
  intros Hlast Ha Hx. destruct (last_char_split _ _ Hlast) as (a' & c & -> & Hc).
  rewrite (contains_sep c n a' EmptyString Hc) in Ha.
  apply orb_false_iff in Ha as [Ha' _].
  rewrite app_assoc_str. change (String c EmptyString +:+ x) with (String c x).
  by rewrite (contains_sep c n a' x Hc), Ha', Hx.
Qed.

Lemma contains_before (n x b : string) :
  head_char_lacks n b = true ->
  contains n x = false -> contains n b = false -> contains n (x +:+ b) = false.
Proof.
  destruct b as [|c b]; [done|]. cbn [head_char_lacks contains].
  intros Hc Hx Hb. apply orb_false_iff in Hb as [_ Hb].
  by rewrite (contains_sep c n x b Hc), Hx, Hb.
Qed.

Lemma contains_numeral (c : ascii) (n : string) (z : Z) :
  is_numeral_char c = false -> contains (String c n) (fmt_int z) = false.
Proof. intros Hc. by apply contains_lacks, fmt_int_lacks. Qed.

Ltac line_free :=
  unfold ZooKeeperConfig.keystore_filepath, ZooKeeperConfig.truststore_filepath,
    ZooKeeperConfig.default_config_path;
  rewrite ?app_assoc_str;
  repeat first
    [ assumption
    | solve [vm_compute; reflexivity]
    | solve [apply contains_numeral; reflexivity]
    | apply contains_after; [solve [vm_compute; reflexivity] | solve [vm_compute; reflexivity] | ]
    | apply contains_before; [solve [vm_compute; reflexivity] | | solve [vm_compute; reflexivity] ] ].

(** ** Writing the properties file and reading it back *)

Lemma assembled_no_break (charm : Charm) (dyn : string) :
  no_break (config_data_dir charm) = true ->
  (enabled (tls charm) = true ->
   no_break (fmt_opt (keystore_password (tls charm))) = true) ->
  no_break dyn = true ->
  Forall (fun l => no_break l = true)
    (tuning_properties charm ++ base_properties charm dyn
     ++ tls_properties charm ++ transition_flags charm).
Proof.
  intros Hdir Hpw Hdyn.
  assert (Hline : forall a b, no_break a = true -> no_break b = true ->
                              no_break (a +:+ b) = true).
  { intros a b Ha Hb. unfold no_break in *. by rewrite all_chars_app, Ha, Hb. }
  unfold tuning_properties, base_properties, tls_properties, tls_locations, tls_passwords,
    transition_flags, ZooKeeperConfig.keystore_filepath, ZooKeeperConfig.truststore_filepath,
    ZooKeeperConfig.default_config_path.
  repeat apply Forall_app_2.
  - repeat constructor; apply Hline; auto using fmt_int_no_break.
  - compute_done.
  - repeat constructor; auto.
  - destruct (enabled (tls charm)); [|constructor]. specialize (Hpw eq_refl).
    repeat apply Forall_app_2; [compute_done|..]; repeat constructor; auto 6.
  - destruct (upgrading (tls charm)); repeat constructor.
  - destruct (bool_decide _); repeat constructor.
Qed.

Lemma assembled_last (charm : Charm) (dyn : string) :
  contains "dynamicConfigFile" dyn = true ->
  last (tuning_properties charm ++ base_properties charm dyn
        ++ tls_properties charm ++ transition_flags charm) <> Some EmptyString.
Proof.
  intros Hdyn.
  assert (Hne : dyn <> EmptyString) by (intros ->; discriminate).
  unfold tuning_properties, base_properties, tls_properties, tls_locations, tls_passwords,
    transition_flags.
  rewrite !app_assoc. 
  destruct (enabled (tls charm)), (upgrading (tls charm)), (bool_decide _);
    rewrite ?app_nil_r, ?app_assoc, ?last_snoc;
    try discriminate.
  all: change [?a; ?b; ?c] with ([a; b] ++ [c]);
       change [?a; ?b; ?c; ?d] with ([a; b; c] ++ [d]);
       rewrite ?app_assoc, ?last_snoc; try discriminate; congruence.
Qed.

Lemma set_zookeeper_properties_lines
    (pull : string -> string -> result string) (charm : Charm) (dyn : string) :
  no_break (config_data_dir charm) = true ->
  (enabled (tls charm) = true ->
   no_break (fmt_opt (keystore_password (tls charm))) = true) ->
  ZooKeeperConfig.current_dynamic_config_file pull charm = Ok dyn ->
  splitlines (join nl (tuning_properties charm ++ base_properties charm dyn
                       ++ tls_properties charm ++ transition_flags charm))
  = tuning_properties charm ++ base_properties charm dyn
    ++ tls_properties charm ++ transition_flags charm.
Proof.
  intros Hdir Hpw Hdyn. apply splitlines_join.
  - apply assembled_no_break; [done..|].
    by eapply current_dynamic_config_file_no_break.
  - eapply assembled_last, current_dynamic_config_file_key, Hdyn.
Qed.

(** X2. The file [set_zookeeper_properties] writes reads back, line by
    line, as the list that was assembled, when neither the data directory
    nor (with TLS) the keystore password holds a line boundary. *)
Theorem set_zookeeper_properties_round_trip
    (pull : string -> string -> result string) (charm : Charm) :
  settles (pull (ZooKeeperConfig.container charm) (ZooKeeperConfig.properties_filepath charm))
    = true ->
  no_break (config_data_dir charm) = true ->
  (enabled (tls charm) = true ->
   no_break (fmt_opt (keystore_password (tls charm))) = true) ->
  exists properties call,
    ZooKeeperConfig.zookeeper_properties pull charm = Ok properties
    /\ ZooKeeperConfig.set_zookeeper_properties pull charm = Ok call
    /\ splitlines (push_content call) = properties.
Proof.
  intros Hs Hdir Hpw. destruct (current_dynamic_config_file_settles _ _ Hs) as [dyn Hdyn].
  pose proof (zookeeper_properties_eq _ _ _ Hdyn) as Heq.
  eexists _, _. split; [exact Heq|].
  unfold ZooKeeperConfig.set_zookeeper_properties. rewrite Heq.
  split; [reflexivity|]. cbn [push_content].
  by apply (set_zookeeper_properties_lines pull).
Qed.

Lemma set_zookeeper_properties_round_trip_witness :
  exists properties call,
    ZooKeeperConfig.zookeeper_properties pull_missing tls_charm = Ok properties
    /\ ZooKeeperConfig.set_zookeeper_properties pull_missing tls_charm = Ok call
    /\ splitlines (push_content call) = properties.
Proof.
  apply (set_zookeeper_properties_round_trip pull_missing tls_charm); reflexivity.
Defined.

(** The lines in front of the pointer line, and those behind it. *)
Lemma assembled_shape (charm : Charm) (dyn : string) :
  tuning_properties charm ++ base_properties charm dyn
    ++ tls_properties charm ++ transition_flags charm
  = (tuning_properties charm
     ++ split LF DEFAULT_PROPERTIES
     ++ [ "dataDir=" +:+ ZooKeeperConfig.default_config_path charm +:+ "/data";
          "dataLogDir=" +:+ ZooKeeperConfig.default_config_path charm +:+ "/log" ])
    ++ dyn :: (tls_properties charm ++ transition_flags charm).
Proof. unfold base_properties. by rewrite <- !app_assoc. Qed.

Lemma before_pointer_key_free (charm : Charm) :
  contains "dynamicConfigFile" (config_data_dir charm) = false ->
  Forall (fun l => contains "dynamicConfigFile" l = false)
    (tuning_properties charm
     ++ split LF DEFAULT_PROPERTIES
     ++ [ "dataDir=" +:+ ZooKeeperConfig.default_config_path charm +:+ "/data";
          "dataLogDir=" +:+ ZooKeeperConfig.default_config_path charm +:+ "/log" ]).
Proof.
  intros Hdir. unfold tuning_properties.
  repeat apply Forall_app_2; [|compute_done|]; repeat constructor; line_free.
Qed.

Lemma scan_dynamic_config_skip (default : string) (pre rest : list string) :
  Forall (fun l => contains "dynamicConfigFile" l = false) pre ->
  ZooKeeperConfig.scan_dynamic_config default (pre ++ rest)
  = ZooKeeperConfig.scan_dynamic_config default rest.
Proof.
  induction 1 as [|x pre Hx _ IH]; [done|].
  cbn [app ZooKeeperConfig.scan_dynamic_config]. by rewrite Hx.
Qed.

(** X3. Reconciling twice changes nothing: once the assembled list is
    written, a read that returns the written content makes the tracker
    return the same pointer line and the assembler the same list, when the
    data directory holds neither [dynamicConfigFile] nor a line boundary
    and the keystore password (with TLS) no line boundary. *)
Theorem zookeeper_properties_stable
    (pull : string -> string -> result string) (charm : Charm) :
  settles (pull (ZooKeeperConfig.container charm) (ZooKeeperConfig.properties_filepath charm))
    = true ->
  no_break (config_data_dir charm) = true ->
  contains "dynamicConfigFile" (config_data_dir charm) = false ->
  (enabled (tls charm) = true ->
   no_break (fmt_opt (keystore_password (tls charm))) = true) ->
  exists properties call,
    ZooKeeperConfig.zookeeper_properties pull charm = Ok properties
    /\ ZooKeeperConfig.set_zookeeper_properties pull charm = Ok call
    /\ forall pull' : string -> string -> result string,
         pull' (push_container call) (push_path call) = Ok (push_content call) ->
         ZooKeeperConfig.current_dynamic_config_file pull' charm
         = ZooKeeperConfig.current_dynamic_config_file pull charm
         /\ ZooKeeperConfig.zookeeper_properties pull' charm = Ok properties.
Proof.
  intros Hs Hdir Hkey Hpw.
  destruct (current_dynamic_config_file_settles _ _ Hs) as [dyn Hdyn].
  pose proof (zookeeper_properties_eq _ _ _ Hdyn) as Heq.
  eexists _, _. split; [exact Heq|].
  unfold ZooKeeperConfig.set_zookeeper_properties. rewrite Heq.
  split; [reflexivity|]. cbn [push_container push_path push_content].
  intros pull' Hread.
  assert (Hdyn' : ZooKeeperConfig.current_dynamic_config_file pull' charm = Ok dyn).
  { unfold ZooKeeperConfig.current_dynamic_config_file. rewrite Hread.
    rewrite (set_zookeeper_properties_lines pull) by done.
    rewrite assembled_shape.
    rewrite scan_dynamic_config_skip by (by apply before_pointer_key_free).
    cbn [app ZooKeeperConfig.scan_dynamic_config].
    by rewrite (current_dynamic_config_file_key _ _ _ Hdyn). }
  split; [by rewrite Hdyn, Hdyn'|].
  by rewrite (zookeeper_properties_eq _ _ _ Hdyn').
Qed.

Lemma zookeeper_properties_stable_witness :
  exists properties call,
    ZooKeeperConfig.zookeeper_properties (pull_contents deployed_contents) tls_charm
      = Ok properties
    /\ ZooKeeperConfig.set_zookeeper_properties (pull_contents deployed_contents) tls_charm
       = Ok call
    /\ forall pull' : string -> string -> result string,
         pull' (push_container call) (push_path call) = Ok (push_content call) ->
         ZooKeeperConfig.current_dynamic_config_file pull' tls_charm
         = ZooKeeperConfig.current_dynamic_config_file (pull_contents deployed_contents)
             tls_charm
         /\ ZooKeeperConfig.zookeeper_properties pull' tls_charm = Ok properties.
Proof.
  apply (zookeeper_properties_stable (pull_contents deployed_contents) tls_charm);
    reflexivity.
Defined.

Lemma filter_none (n : string) (lines : list string) :
  Forall (fun l => contains n l = false) lines ->
  filter (fun l => contains n l = true) lines = [].
Proof.
  induction 1 as [|x lines Hx _ IH]; [done|].
  rewrite filter_cons_False by congruence. exact IH.
Qed.

Lemma tls_properties_key_free (charm : Charm) :
  contains "dynamicConfigFile" (config_data_dir charm) = false ->
  (enabled (tls charm) = true ->
   contains "dynamicConfigFile" (fmt_opt (keystore_password (tls charm))) = false) ->
  Forall (fun l => contains "dynamicConfigFile" l = false)
    (tls_properties charm ++ transition_flags charm).
Proof.
  intros Hdir Hpw. unfold tls_properties, tls_locations, tls_passwords, transition_flags.
  repeat apply Forall_app_2.
  - destruct (enabled (tls charm)); [|constructor]. specialize (Hpw eq_refl).
    repeat apply Forall_app_2; [compute_done|..]; repeat constructor; line_free.
  - destruct (upgrading (tls charm)); repeat constructor.
  - destruct (bool_decide _); repeat constructor.
Qed.

(** X4. The assembled list has exactly one line that mentions
    [dynamicConfigFile], the one the tracker returned, when neither the
    data directory nor (with TLS) the keystore password contains that
    text. *)
Theorem zookeeper_properties_one_pointer
    (pull : string -> string -> result string) (charm : Charm) :
  settles (pull (ZooKeeperConfig.container charm) (ZooKeeperConfig.properties_filepath charm))
    = true ->
  contains "dynamicConfigFile" (config_data_dir charm) = false ->
  (enabled (tls charm) = true ->
   contains "dynamicConfigFile" (fmt_opt (keystore_password (tls charm))) = false) ->
  exists dyn properties,
    ZooKeeperConfig.current_dynamic_config_file pull charm = Ok dyn
    /\ ZooKeeperConfig.zookeeper_properties pull charm = Ok properties
    /\ filter (fun l => contains "dynamicConfigFile" l = true) properties = [dyn].
Proof.
  intros Hs Hdir Hpw.
  destruct (current_dynamic_config_file_settles _ _ Hs) as [dyn Hdyn].
  exists dyn. eexists. split; [done|].
  split; [exact (zookeeper_properties_eq _ _ _ Hdyn)|].
  rewrite assembled_shape, filter_app.
  rewrite filter_none by (by apply before_pointer_key_free).
  rewrite filter_cons_True by (by eapply current_dynamic_config_file_key).
  by rewrite filter_none by (by apply tls_properties_key_free).
Qed.

Lemma zookeeper_properties_one_pointer_witness :
  exists dyn properties,
    ZooKeeperConfig.current_dynamic_config_file (pull_contents deployed_contents) tls_charm
      = Ok dyn
    /\ ZooKeeperConfig.zookeeper_properties (pull_contents deployed_contents) tls_charm
       = Ok properties
    /\ filter (fun l => contains "dynamicConfigFile" l = true) properties = [dyn].
Proof.
  apply (zookeeper_properties_one_pointer (pull_contents deployed_contents) tls_charm);
    reflexivity.
Defined.

(** ** The static list of the assembled properties *)

Lemma filter_agree {A : Type} (P Q : A -> Prop)
    `{!forall x, Decision (P x)} `{!forall x, Decision (Q x)} (l : list A) :
  Forall (fun x => P x <-> Q x) l -> filter P l = filter Q l.
Proof.
  induction 1 as [|x l Hx _ IH]; [done|].
  rewrite !filter_cons, IH. destruct (decide (P x)), (decide (Q x)); tauto.
Qed.

Lemma filter_all {A : Type} (P : A -> Prop) `{!forall x, Decision (P x)} (l : list A) :
  Forall P l -> filter P l = l.
Proof.
  induction 1 as [|x l Hx _ IH]; [done|]. by rewrite filter_cons_True, IH.
Qed.

Lemma static_line_kept (line : string) :
  is_static line -> (is_static line <-> line <> "secureClientPort=2182").
Proof.
  intros Hs. split; [|done]. intros _ ->. destruct Hs as [_ Hs]. discriminate.
Qed.

Lemma assembled_static (charm : Charm) (dyn : string) :
  is_static (config_data_dir charm) ->
  is_static dyn ->
  (enabled (tls charm) = true -> is_static (fmt_opt (keystore_password (tls charm)))) ->
  Forall (fun l => is_static l <-> l <> "secureClientPort=2182")
    (tuning_properties charm ++ base_properties charm dyn
     ++ tls_properties charm ++ transition_flags charm).
Proof.
  intros [Hd1 Hd2] Hdyn Hpw.
  unfold tuning_properties, base_properties, tls_properties, tls_locations, tls_passwords,
    transition_flags.
  repeat apply Forall_app_2.
  - repeat (apply List.Forall_cons; [apply static_line_kept; split; line_free|]).
    apply List.Forall_nil.
  - unfold is_static. compute_done.
  - repeat (apply List.Forall_cons;
            [apply static_line_kept; first [done | split; line_free]|]).
    apply List.Forall_nil.
  - destruct (enabled (tls charm)); [|constructor]. destruct (Hpw eq_refl) as [Hp1 Hp2].
    repeat apply Forall_app_2; [unfold is_static; compute_done|..];
      repeat (apply List.Forall_cons; [apply static_line_kept; split; line_free|]);
      apply List.Forall_nil.
  - destruct (upgrading (tls charm)); [|constructor].
    apply List.Forall_cons; [by apply static_line_kept|constructor].
  - destruct (bool_decide _); [|constructor].
    apply List.Forall_cons; [by apply static_line_kept|constructor].
Qed.

Lemma assembled_without_tls (charm : Charm) (dyn : string) :
  enabled (tls charm) = false ->
  is_static dyn ->
  Forall (fun l => l <> "secureClientPort=2182")
    (tuning_properties charm ++ base_properties charm dyn
     ++ tls_properties charm ++ transition_flags charm).
Proof.
  intros Htls Hdyn.
  unfold tuning_properties, base_properties, tls_properties, transition_flags.
  rewrite Htls. repeat apply Forall_app_2.
  - repeat constructor; discriminate.
  - compute_done.
  - repeat constructor; try discriminate. by apply static_line_kept.
  - constructor.
  - destruct (upgrading (tls charm)); repeat constructor; discriminate.
  - destruct (bool_decide _); repeat constructor; discriminate.
Qed.

(** X5. Of the assembled list the partitioner removes the line
    [secureClientPort=2182] and nothing else, so without TLS the static
    list is the whole list; this holds when the data directory, the
    pointer line and (with TLS) the keystore password do not themselves
    contain [clientPort] or [secureClientPort]. *)
Theorem static_properties_drops_secure_port
    (pull : string -> string -> result string) (charm : Charm) (dyn : string) :
  ZooKeeperConfig.current_dynamic_config_file pull charm = Ok dyn ->
  is_static (config_data_dir charm) ->
  is_static dyn ->
  (enabled (tls charm) = true -> is_static (fmt_opt (keystore_password (tls charm)))) ->
  exists properties,
    ZooKeeperConfig.zookeeper_properties pull charm = Ok properties
    /\ ZooKeeperConfig.static_properties pull charm
       = Ok (filter (fun l => l <> "secureClientPort=2182") properties)
    /\ (enabled (tls charm) = false ->
        ZooKeeperConfig.static_properties pull charm = Ok properties).
Proof.
  intros Hdyn Hdir Hstatic Hpw.
  pose proof (zookeeper_properties_eq _ _ _ Hdyn) as Heq.
  pose proof (assembled_static charm dyn Hdir Hstatic Hpw) as Hall.
  eexists. split; [exact Heq|].
  unfold ZooKeeperConfig.static_properties, ZooKeeperConfig.build_static_properties.
  rewrite Heq. cbn [mbind result_bind mret result_ret].
  fold is_static. rewrite (filter_agree _ _ _ Hall). split; [done|].
  intros Htls. f_equal. apply filter_all. by apply assembled_without_tls.
Qed.

Lemma static_properties_drops_secure_port_witness :
  exists properties,
    ZooKeeperConfig.zookeeper_properties (pull_contents deployed_contents) tls_charm
      = Ok properties
    /\ ZooKeeperConfig.static_properties (pull_contents deployed_contents) tls_charm
       = Ok (filter (fun l => l <> "secureClientPort=2182") properties)
    /\ (enabled (tls tls_charm) = false ->
        ZooKeeperConfig.static_properties (pull_contents deployed_contents) tls_charm
        = Ok properties).
Proof.
  apply (static_properties_drops_secure_port (pull_contents deployed_contents) tls_charm
           "dynamicConfigFile=/cfg/zookeeper-dynamic-v7.properties");
    first [reflexivity | split; reflexivity].
Defined.

(** X6. The partitioner never hides the migration stage: the static list
    carries [portUnification=true] exactly when the charm is upgrading and
    [sslQuorum=true] exactly when the quorum mode is ssl. *)
Theorem static_properties_migration_flags
    (pull : string -> string -> result string) (charm : Charm) :
  settles (pull (ZooKeeperConfig.container charm) (ZooKeeperConfig.properties_filepath charm))
    = true ->
  exists static,
    ZooKeeperConfig.static_properties pull charm = Ok static
    /\ ("portUnification=true" ∈ static <-> upgrading (tls charm) = true)
    /\ ("sslQuorum=true" ∈ static <-> quorum charm = Some "ssl").
Proof.
  intros Hs. destruct (zookeeper_properties_flags_last _ _ Hs) as (body & Heq & Hbody).
  unfold ZooKeeperConfig.static_properties, ZooKeeperConfig.build_static_properties.
  rewrite Heq. cbn [mbind result_bind mret result_ret]. eexists. split; [reflexivity|].
  assert (Hp : "portUnification=true" ∉ body).
  { intros Hin. rewrite Forall_forall in Hbody. by destruct (Hbody _ Hin). }
  assert (Hq : "sslQuorum=true" ∉ body).
  { intros Hin. rewrite Forall_forall in Hbody. by destruct (Hbody _ Hin). }
  rewrite !list_elem_of_filter, !elem_of_app. unfold transition_flags, PORT_UNIFICATION, SSL_QUORUM.
  split.
  - split.
    + intros [_ [?|[Hin|Hin]%elem_of_app]]; [done| |].
      * by destruct (upgrading (tls charm)); [|apply elem_of_nil in Hin].
      * destruct (bool_decide _); [|by apply elem_of_nil in Hin].
        apply list_elem_of_singleton in Hin. discriminate.
    + intros ->. split; [by split|]. right. apply elem_of_app. left. by left.
  - split.
    + intros [_ [?|[Hin|Hin]%elem_of_app]]; [done| |].
      * destruct (upgrading (tls charm)); [|by apply elem_of_nil in Hin].
        apply list_elem_of_singleton in Hin. discriminate.
      * destruct (bool_decide (quorum charm = Some "ssl")) eqn:Hb;
          [|by apply elem_of_nil in Hin].
        by apply bool_decide_eq_true in Hb.
    + intros Hssl. split; [by split|]. right. apply elem_of_app. right.
      rewrite bool_decide_eq_true_2 by done. by left.
Qed.

Lemma static_properties_migration_flags_witness :
  exists static,
    ZooKeeperConfig.static_properties pull_missing migrating_charm = Ok static
    /\ ("portUnification=true" ∈ static <-> upgrading (tls migrating_charm) = true)
    /\ ("sslQuorum=true" ∈ static <-> quorum migrating_charm = Some "ssl").
Proof.
  apply (static_properties_migration_flags pull_missing migrating_charm). reflexivity.
Defined.

(** X7. An exception of [pull] other than [PathError] is not caught: the
    tracker, the assembler and the static list raise it, and
    [set_zookeeper_properties] raises it without pushing anything. *)
Theorem pull_error_propagates
    (pull : string -> string -> result string) (charm : Charm) (name : string) :
  pull (ZooKeeperConfig.container charm) (ZooKeeperConfig.properties_filepath charm)
    = Raise (OtherError name) ->
  ZooKeeperConfig.current_dynamic_config_file pull charm = Raise (OtherError name)
  /\ ZooKeeperConfig.zookeeper_properties pull charm = Raise (OtherError name)
  /\ ZooKeeperConfig.static_properties pull charm = Raise (OtherError name)
  /\ ZooKeeperConfig.set_zookeeper_properties pull charm = Raise (OtherError name).
Proof.
  intros Hpull.
  assert (Hdyn : ZooKeeperConfig.current_dynamic_config_file pull charm
                 = Raise (OtherError name)).
  { unfold ZooKeeperConfig.current_dynamic_config_file. by rewrite Hpull. }
  assert (Hzp : ZooKeeperConfig.zookeeper_properties pull charm = Raise (OtherError name)).
  { unfold ZooKeeperConfig.zookeeper_properties. by rewrite Hdyn. }
  repeat split; [done|done| |].
  - unfold ZooKeeperConfig.static_properties. by rewrite Hzp.
  - unfold ZooKeeperConfig.set_zookeeper_properties. by rewrite Hzp.
Qed.

Lemma pull_error_propagates_witness :
  ZooKeeperConfig.current_dynamic_config_file pull_disconnected sample_charm
    = Raise (OtherError "ConnectionError")
  /\ ZooKeeperConfig.zookeeper_properties pull_disconnected sample_charm
    = Raise (OtherError "ConnectionError")
  /\ ZooKeeperConfig.static_properties pull_disconnected sample_charm
    = Raise (OtherError "ConnectionError")
  /\ ZooKeeperConfig.set_zookeeper_properties pull_disconnected sample_charm
    = Raise (OtherError "ConnectionError").
Proof.
  apply (pull_error_propagates pull_disconnected sample_charm "ConnectionError").
  reflexivity.
Defined.

(** ** Client users of the auth configuration *)

Lemma jaas_users_loop_elem (data : gmap string string) (relations : list Z) (line : string) :
  line ∈ ZooKeeperConfig.jaas_users_loop data relations
  <-> exists relation_id password,
        relation_id ∈ relations
        /\ data !! ("relation-" +:+ fmt_int relation_id) = Some password
        /\ password <> EmptyString
        /\ line = user_line relation_id password.
Proof.
  induction relations as [|r relations IH].
  - split; [by intros ?%elem_of_nil | by intros (? & ? & ?%elem_of_nil & _)].
  - cbn [ZooKeeperConfig.jaas_users_loop].
    change (truthy (Some ("relation-" +:+ fmt_int r))) with true. cbn [andb].
    destruct (data !! ("relation-" +:+ fmt_int r)) as [[|c pw]|] eqn:Hr; cbn [truthy negb].
    + rewrite IH. split; intros (i & p & Hi & Hp & Hne & ->); exists i, p.
      * repeat split; [by right|done..].
      * apply elem_of_cons in Hi as [->|Hi]; [congruence|done].
    + rewrite elem_of_cons, IH. split.
      * intros [->|(i & p & Hi & Hp & Hne & ->)].
        -- exists r, (String c pw). repeat split; [by left|done..].
        -- exists i, p. repeat split; [by right|done..].
      * intros (i & p & Hi & Hp & Hne & ->).
        apply elem_of_cons in Hi as [->|Hi]; [left|right; by exists i, p].
        rewrite Hr in Hp. by injection Hp as <-.
    + rewrite IH. split; intros (i & p & Hi & Hp & Hne & ->); exists i, p.
      * repeat split; [by right|done..].
      * apply elem_of_cons in Hi as [->|Hi]; [congruence|done].
Qed.

(** X8. [jaas_users] lists, for exactly the client relations whose
    password is in the databag and not empty, the line
    [user_relation-<id>="<password>"]. *)
Theorem jaas_users_lines (charm : Charm) (line : string) :
  line ∈ ZooKeeperConfig.jaas_users charm
  <-> exists relation_id password,
        relation_id ∈ client_relations charm
        /\ app_data charm !! ("relation-" +:+ fmt_int relation_id) = Some password
        /\ password <> EmptyString
        /\ line = "user_relation-" +:+ fmt_int relation_id
                  +:+ "=" +:+ dq +:+ password +:+ dq.
Proof. rewrite jaas_users_loop_eq. apply jaas_users_loop_elem. Qed.

Lemma sep_inj (c : ascii) (s1 s2 r1 r2 : string) :
  lacks c s1 = true -> lacks c s2 = true ->
  s1 +:+ String c r1 = s2 +:+ String c r2 -> s1 = s2.
Proof.
  revert s2. induction s1 as [|x s1 IH]; intros [|y s2] H1 H2 Heq; unfold lacks in *;
    cbn [all_chars] in *.
  - done.
  - injection Heq as <- _. by rewrite Ascii.eqb_refl in H2.
  - injection Heq as -> _. by rewrite Ascii.eqb_refl in H1.
  - apply andb_true_iff in H1 as [_ H1]. apply andb_true_iff in H2 as [_ H2].
    injection Heq as -> Heq. f_equal. by apply IH.
Qed.

Lemma user_line_inj (a b : Z) (p q : string) : user_line a p = user_line b q -> a = b.
Proof.
  unfold user_line. intros Heq. apply (inj (String.app "user_relation-")) in Heq.
  apply sep_inj in Heq; [|by apply fmt_int_lacks..].
  by apply (inj pretty).
Qed.

(** X9. Distinct client relations never share a user line: when the
    relation ids are pairwise distinct, so are the lines of [jaas_users]. *)
Theorem jaas_users_distinct (charm : Charm) :
  NoDup (client_relations charm) -> NoDup (ZooKeeperConfig.jaas_users charm).
Proof.
  rewrite jaas_users_loop_eq. generalize (app_data charm) as data.
  intros data. induction 1 as [|r relations Hr Hnd IH]; [constructor|].
  cbn [ZooKeeperConfig.jaas_users_loop]. destruct (negb _); [done|].
  constructor; [|done]. intros Hin.
  apply jaas_users_loop_elem in Hin as (i & p & Hi & _ & _ & Heq).
  change ("user_" +:+ ("relation-" +:+ fmt_int r) +:+ "=" +:+ dq
          +:+ fmt_opt (data !! ("relation-" +:+ fmt_int r)) +:+ dq)
    with (user_line r (fmt_opt (data !! ("relation-" +:+ fmt_int r)))) in Heq.
  apply user_line_inj in Heq as ->. contradiction.
Qed.

Lemma jaas_users_distinct_witness :
  ZooKeeperConfig.jaas_users busy_charm
    = [ "user_relation-3=" +:+ dq +:+ "clientpw" +:+ dq;
        "user_relation-7=" +:+ dq +:+ "clientpw" +:+ dq ]
  /\ NoDup (ZooKeeperConfig.jaas_users busy_charm).
Proof.
  split; [reflexivity|].
  apply (jaas_users_distinct busy_charm).
  apply (bool_decide_unpack _). vm_compute. exact I.
Defined.

Lemma contains_self (s : string) : contains s s = true.
Proof.
  apply contains_prefix. induction s as [|c s IH]; [done|].
  cbn [String.prefix]. by destruct (ascii_dec c c).
Qed.

Lemma contains_join (sep x : string) (l : list string) :
  x ∈ l -> contains x (join sep l) = true.
Proof.
  induction l as [|y l IH]; [by intros ?%elem_of_nil|].
  intros Hin. destruct l as [|z l].
  - apply list_elem_of_singleton in Hin as ->. apply contains_self.
  - change (contains x (y +:+ sep +:+ join sep (z :: l)) = true).
    apply elem_of_cons in Hin as [->|Hin].
    + apply contains_app_l, contains_self.
    + by apply contains_app_r, contains_app_r, IH.
Qed.

Lemma or_empty_id (s : string) : or_empty s = s.
Proof. by destruct s. Qed.

(** X10. No client credential is lost on the way to the file: every line
    of [jaas_users] is part of the text [jaas_config] returns, which is the
    content [set_jaas_config] pushes. *)
Theorem jaas_config_carries_users (charm : Charm) (line : string) :
  line ∈ ZooKeeperConfig.jaas_users charm ->
  contains line (ZooKeeperConfig.jaas_config charm) = true
  /\ contains line (push_content (ZooKeeperConfig.set_jaas_config charm)) = true.
Proof.
  intros Hin. apply (contains_join nl) in Hin.
  assert (H : contains line (ZooKeeperConfig.jaas_config charm) = true); [|by split].
  unfold ZooKeeperConfig.jaas_config. rewrite or_empty_id.
  unfold ZooKeeperConfig.jaas_text.
  repeat first [ apply contains_app_l; assumption | apply contains_app_r ].
Qed.

Lemma jaas_config_carries_users_witness :
  contains ("user_relation-3=" +:+ dq +:+ "clientpw" +:+ dq)
    (ZooKeeperConfig.jaas_config serving_charm) = true
  /\ contains ("user_relation-3=" +:+ dq +:+ "clientpw" +:+ dq)
      (push_content (ZooKeeperConfig.set_jaas_config serving_charm)) = true.
Proof.
  apply (jaas_config_carries_users serving_charm). vm_compute. by left.
Defined.

(** ** Where the files are written and where they are looked for *)

(** X11. The files are referenced under the paths they are pushed to: the
    JVM option of [kafka_opts], also inside the [KAFKA_OPTS] line, names
    the path of [set_jaas_config]; [zookeeper_command] starts the server
    on the path of [set_zookeeper_properties]; and the default pointer
    names the path of [set_zookeeper_dynamic_properties]. *)
Theorem pushed_paths_agree
    (pull : string -> string -> result string) (charm : Charm) (servers : string) :
  let jaas := ZooKeeperConfig.set_jaas_config charm in
  let dynamic := ZooKeeperConfig.set_zookeeper_dynamic_properties charm servers in
  ("-Djava.security.auth.login.config=" +:+ push_path jaas) ∈ ZooKeeperConfig.kafka_opts charm
  /\ contains ("-Djava.security.auth.login.config=" +:+ push_path jaas)
       (push_content (ZooKeeperConfig.set_kafka_opts charm)) = true
  /\ (forall call,
        ZooKeeperConfig.set_zookeeper_properties pull charm = Ok call ->
        ZooKeeperConfig.zookeeper_command charm
        = "/opt/kafka/bin/zookeeper-server-start.sh " +:+ push_path call)
  /\ (forall kind,
        pull (ZooKeeperConfig.container charm) (ZooKeeperConfig.properties_filepath charm)
          = Raise (PathError kind) ->
        ZooKeeperConfig.current_dynamic_config_file pull charm
        = Ok ("dynamicConfigFile=" +:+ push_path dynamic)).
Proof.
  cbn zeta.
  assert (Hopt : ("-Djava.security.auth.login.config="
                  +:+ push_path (ZooKeeperConfig.set_jaas_config charm))
                 ∈ ZooKeeperConfig.kafka_opts charm).
  { unfold ZooKeeperConfig.kafka_opts, ZooKeeperConfig.set_jaas_config. cbn [push_path].
    do 2 apply list_elem_of_further. apply list_elem_of_here. }
  split; [exact Hopt|split; [|split]].
  - apply (contains_join " ") in Hopt.
    unfold ZooKeeperConfig.set_kafka_opts. cbn [push_content].
    by apply contains_app_r, contains_app_l.
  - intros call. unfold ZooKeeperConfig.set_zookeeper_properties.
    destruct (ZooKeeperConfig.zookeeper_properties pull charm) as [properties|e] eqn:Hzp;
      [|discriminate].
    by intros [= <-].
  - intros kind Hpull. unfold ZooKeeperConfig.current_dynamic_config_file.
    by rewrite Hpull.
Qed.

Lemma pushed_paths_agree_witness :
  ("-Djava.security.auth.login.config=/var/lib/zookeeper/config/zookeeper-jaas.cfg")
    ∈ ZooKeeperConfig.kafka_opts sample_charm
  /\ ZooKeeperConfig.current_dynamic_config_file pull_missing sample_charm
     = Ok ("dynamicConfigFile="
           +:+ push_path (ZooKeeperConfig.set_zookeeper_dynamic_properties sample_charm
                            "server.1=zk-0:2888:3888:participant;0.0.0.0:2181")).
Proof.
  destruct (pushed_paths_agree pull_missing sample_charm
              "server.1=zk-0:2888:3888:participant;0.0.0.0:2181")
    as (Hopt & _ & _ & Hptr).
  split; [exact Hopt|]. apply (Hptr "not-found"). reflexivity.
Defined.

(** ** The node identity *)

Lemma split_lacks (c : ascii) (s : string) : lacks c s = true -> split c s = [s].
Proof.
  induction s as [|x s IH]; [done|]. unfold lacks. cbn [all_chars split].
  rewrite andb_true_iff, negb_true_iff. intros [Hx Hs]. by rewrite Hx, IH.
Qed.

Lemma split_sep (c : ascii) (a b : string) :
  lacks c a = true -> split c (a +:+ String c b) = a :: split c b.
Proof.
  induction a as [|x a IH].
  - intros _. change (split c (String c b) = EmptyString :: split c b).
    cbn [split]. by rewrite Ascii.eqb_refl.
  - unfold lacks. cbn [all_chars]. rewrite andb_true_iff, negb_true_iff. intros [Hx Ha].
    change (split c (String x (a +:+ String c b)) = String x a :: split c b).
    cbn [split]. by rewrite Hx, IH.
Qed.

(** X12. For a unit named [<app>/<n>], with an application name free of
    slashes, [set_zookeeper_myid] pushes the text of [n + 1] to
    [<data-dir>/config/data/myid], given that [int] reads the numeral of
    [n] back as [n]. *)
Theorem set_zookeeper_myid_ordinal
    (int : string -> result Z) (charm : Charm) (app : string) (n : Z) :
  lacks "/" app = true ->
  int (fmt_int n) = Ok n ->
  ZooKeeperConfig.set_zookeeper_myid int (app +:+ "/" +:+ fmt_int n) charm
  = Ok {| push_container := CONTAINER;
          push_content := fmt_int (n + 1);
          push_path := config_data_dir charm +:+ "/config/data/myid" |}.
Proof.
  intros Happ Hint. unfold ZooKeeperConfig.set_zookeeper_myid.
  change (app +:+ "/" +:+ fmt_int n) with (app +:+ String "/" (fmt_int n)).
  rewrite split_sep by done. rewrite split_lacks by (by apply fmt_int_lacks).
  cbn [lookup list_lookup]. rewrite Hint. cbn [mbind result_bind mret result_ret].
  unfold ZooKeeperConfig.default_config_path, ZooKeeperConfig.container.
  by rewrite app_assoc_str.
Qed.

Lemma set_zookeeper_myid_ordinal_witness :
  ZooKeeperConfig.set_zookeeper_myid int_of_numeral "zookeeper-k8s/2" sample_charm
  = Ok {| push_container := "zookeeper";
          push_content := "3";
          push_path := "/var/lib/zookeeper/config/data/myid" |}.
Proof.
  apply (set_zookeeper_myid_ordinal int_of_numeral sample_charm "zookeeper-k8s" 2);
    reflexivity.
Defined.

(** X13. A unit name without a slash makes [set_zookeeper_myid] raise
    [IndexError] without pushing anything; for a name [<app>/<text>] with
    one slash, what [int] raises on the text is raised, again without a
    push. *)
Theorem set_zookeeper_myid_errors
    (int : string -> result Z) (charm : Charm) (unit_name : string) :
  (lacks "/" unit_name = true ->
   ZooKeeperConfig.set_zookeeper_myid int unit_name charm = Raise (OtherError "IndexError"))
  /\ (forall app ordinal_text e,
        unit_name = app +:+ "/" +:+ ordinal_text ->
        lacks "/" app = true ->
        lacks "/" ordinal_text = true ->
        int ordinal_text = Raise e ->
        ZooKeeperConfig.set_zookeeper_myid int unit_name charm = Raise e).
Proof.
  split.
  - intros Hname. unfold ZooKeeperConfig.set_zookeeper_myid.
    by rewrite split_lacks.
  - intros app ordinal_text e -> Happ Hord Hint.
    unfold ZooKeeperConfig.set_zookeeper_myid.
    change (app +:+ "/" +:+ ordinal_text) with (app +:+ String "/" ordinal_text).
    rewrite split_sep, split_lacks by done.
    cbn [lookup list_lookup]. by rewrite Hint.
Qed.

Lemma set_zookeeper_myid_errors_witness :
  ZooKeeperConfig.set_zookeeper_myid int_of_numeral "zookeeper" sample_charm
    = Raise (OtherError "IndexError")
  /\ ZooKeeperConfig.set_zookeeper_myid int_of_numeral "zookeeper/leader" sample_charm
    = Raise (OtherError "ValueError").
Proof.
  split.
  - apply (proj1 (set_zookeeper_myid_errors int_of_numeral sample_charm "zookeeper")).
    reflexivity.
  - apply (proj2 (set_zookeeper_myid_errors int_of_numeral sample_charm "zookeeper/leader")
             "zookeeper" "leader"); reflexivity.
Defined.

Lemma zookeeper_properties_keys_unique_without_tls_witness :
  exists properties,
    ZooKeeperConfig.zookeeper_properties (pull_contents deployed_contents) sample_charm
      = Ok properties
    /\ NoDup (keys properties).
Proof.
  apply (zookeeper_properties_keys_unique_without_tls
           (pull_contents deployed_contents) sample_charm
           "dynamicConfigFile=/cfg/zookeeper-dynamic-v7.properties"); reflexivity.
Defined.

(** ** The environment line *)

Lemma all_chars_join (p : ascii -> bool) (sep : string) (l : list string) :
  all_chars p sep = true ->
  Forall (fun s => all_chars p s = true) l ->
  all_chars p (join sep l) = true.
Proof.
  intros Hsep. induction 1 as [|x l Hx Hl IH]; [done|].
  destruct l as [|y l]; [done|].
  change (all_chars p (x +:+ sep +:+ join sep (y :: l)) = true).
  by rewrite !all_chars_app, Hx, Hsep, IH.
Qed.

(** X14. The line [set_kafka_opts] writes to [/etc/environment] is
    [KAFKA_OPTS='<options>'] with options that hold no quote and no line
    boundary, so the quoting is well formed, whenever the data directory
    holds neither. *)
Theorem set_kafka_opts_quoted (charm : Charm) :
  lacks "'" (config_data_dir charm) = true ->
  no_break (config_data_dir charm) = true ->
  exists opts,
    ZooKeeperConfig.set_kafka_opts charm
    = {| push_container := CONTAINER;
         push_content := "KAFKA_OPTS='" +:+ opts +:+ "'";
         push_path := "/etc/environment" |}
    /\ lacks "'" opts = true
    /\ no_break opts = true.
Proof.
  intros Hq Hb. exists (join " " (ZooKeeperConfig.kafka_opts charm)).
  split; [done|].
  unfold lacks, no_break, ZooKeeperConfig.kafka_opts, ZooKeeperConfig.jaas_filepath,
    ZooKeeperConfig.default_config_path in *.
  split; (apply all_chars_join; [done|]);
    repeat (apply List.Forall_cons; [|]); try apply List.Forall_nil;
    rewrite ?all_chars_app, ?Hq, ?Hb; done.
Qed.

Lemma set_kafka_opts_quoted_witness :
  exists opts,
    ZooKeeperConfig.set_kafka_opts sample_charm
    = {| push_container := "zookeeper";
         push_content := "KAFKA_OPTS='" +:+ opts +:+ "'";
         push_path := "/etc/environment" |}
    /\ lacks "'" opts = true
    /\ no_break opts = true.
Proof. apply (set_kafka_opts_quoted sample_charm); reflexivity. Defined.

(** ** Desired against deployed *)



(** ** The transition flags close the list *)

(** X16. The transition flags are the last lines of the assembled list,
    [portUnification=true] before [sslQuorum=true], and no line in front of
    them is one of the two. *)
Theorem zookeeper_properties_ends_with_flags
    (pull : string -> string -> result string) (charm : Charm) :
  settles (pull (ZooKeeperConfig.container charm) (ZooKeeperConfig.properties_filepath charm))
    = true ->
  exists body,
    ZooKeeperConfig.zookeeper_properties pull charm
    = Ok (body
          ++ (if upgrading (tls charm) then ["portUnification=true"] else [])
          ++ (if bool_decide (quorum charm = Some "ssl") then ["sslQuorum=true"] else []))
    /\ ("portUnification=true" ∉ body)
    /\ ("sslQuorum=true" ∉ body).
Proof.
  intros Hs. destruct (zookeeper_properties_flags_last _ _ Hs) as (body & Heq & Hbody).
  exists body. split; [exact Heq|].
  rewrite Forall_forall in Hbody.
  split; intros Hin; by destruct (Hbody _ Hin).
Qed.

Lemma zookeeper_properties_ends_with_flags_witness :
  exists body,
    ZooKeeperConfig.zookeeper_properties pull_missing migrating_charm
    = Ok (body ++ ["portUnification=true"] ++ [])
    /\ ("portUnification=true" ∉ body)
    /\ ("sslQuorum=true" ∉ body).
Proof.
  apply (zookeeper_properties_ends_with_flags pull_missing migrating_charm). reflexivity.
Defined.

(** ** The stand-in for [int] reads every numeral back *)

Lemma is_nat_pretty_N_char (m : N) :
  (m < 10)%N -> Ascii.is_nat (pretty_N_char m) = Some (N.to_nat m).
Proof.
  intros Hm.
  assert (m = 0 \/ m = 1 \/ m = 2 \/ m = 3 \/ m = 4 \/ m = 5 \/ m = 6 \/ m = 7
          \/ m = 8 \/ m = 9)%N as Hcases by lia.
  repeat destruct Hcases as [->|Hcases]; try reflexivity. by subst.
Qed.

Lemma numeral_value_pretty_N_go (x : N) (s : string) :
  numeral_value 0 (pretty_N_go x s) = numeral_value (Z.of_N x) s.
Proof.
  revert s. induction (N.lt_wf_0 x) as [x _ IH]; intros s.
  destruct (decide (x = 0)%N) as [->|Hx]; [by rewrite pretty_N_go_0|].
  rewrite pretty_N_go_step by lia. rewrite IH by (apply N.div_lt; lia).
  cbn [numeral_value]. rewrite is_nat_pretty_N_char by (apply N.mod_lt; lia).
  f_equal. rewrite N_nat_Z. pose proof (N.div_mod x 10). lia.
Qed.

Lemma pretty_N_go_nonempty (x : N) (c : ascii) (s : string) :
  pretty_N_go x (String c s) <> EmptyString.
Proof.
  revert c s. induction (N.lt_wf_0 x) as [x _ IH]; intros c s.
  destruct (decide (x = 0)%N) as [->|Hx]; [by rewrite pretty_N_go_0|].
  rewrite pretty_N_go_step by lia. apply IH, N.div_lt; lia.
Qed.

Lemma int_of_numeral_fmt_int (n : Z) : 0 <= n -> int_of_numeral (fmt_int n) = Ok n.
Proof.
  intros Hn. destruct n as [|p|p]; [done| |lia].
  unfold fmt_int, pretty, pretty_Z, pretty, pretty_positive, pretty, pretty_N.
  rewrite decide_False by done. rewrite pretty_N_go_step by lia.
  unfold int_of_numeral.
  destruct (pretty_N_go _ (String _ _)) as [|c s] eqn:E;
    [by apply pretty_N_go_nonempty in E|].
  rewrite <- E, <- pretty_N_go_step by lia.
  by rewrite numeral_value_pretty_N_go.
Qed.

(** ** The tracker tests for the text, not for the key *)

(** C3 fails on the code. The tracker is to return the first line whose
    key is [dynamicConfigFile]; it returns the first line that contains
    that text anywhere. With a comment in front of the pointer line it
    returns the comment, and on the file the charm itself wrote for a data
    directory [/srv/dynamicConfigFile] it returns the [dataDir] line: the
    pointer line, the first line with the key in both files, is lost. *)
Lemma current_dynamic_config_file_misses_pointer :
  (first_with_key "dynamicConfigFile" (splitlines commented_contents)
     = Some "dynamicConfigFile=/cfg/zookeeper-dynamic-v7.properties"
   /\ key_of "# dynamicConfigFile is rewritten at runtime" = None
   /\ ZooKeeperConfig.current_dynamic_config_file (pull_contents commented_contents)
        sample_charm
      = Ok "# dynamicConfigFile is rewritten at runtime")
  /\ (exists call,
        ZooKeeperConfig.set_zookeeper_properties pull_missing pointer_dir_charm = Ok call
        /\ first_with_key "dynamicConfigFile" (splitlines (push_content call))
           = Some "dynamicConfigFile=/srv/dynamicConfigFile/config/zookeeper-dynamic.properties"
        /\ key_of "dataDir=/srv/dynamicConfigFile/config/data" = Some "dataDir"
        /\ ZooKeeperConfig.current_dynamic_config_file (pull_contents (push_content call))
             pointer_dir_charm
           = Ok "dataDir=/srv/dynamicConfigFile/config/data").
Proof.
  split.
  - repeat split; vm_compute; reflexivity.
  - eexists. split; [vm_compute; reflexivity|].
    repeat split; vm_compute; reflexivity.
Qed.

(** C6 fails on the code in its second case. A missing file gives the
    default pointer, but a file that is read and has no line with the key
    [dynamicConfigFile] does not always: when one of its lines mentions
    that text, here a comment, the tracker returns that line instead of
    the default. *)
Lemma current_dynamic_config_file_misses_default :
  ZooKeeperConfig.current_dynamic_config_file pull_missing sample_charm
    = Ok "dynamicConfigFile=/var/lib/zookeeper/config/zookeeper-dynamic.properties"
  /\ first_with_key "dynamicConfigFile" (splitlines commented_keyless_contents) = None
  /\ ZooKeeperConfig.current_dynamic_config_file (pull_contents commented_keyless_contents)
       sample_charm
     = Ok "# dynamicConfigFile was removed by hand".
Proof. repeat split; vm_compute; reflexivity. Qed.
